(** * mojo-zlib automation scripts: a shallow embedding and its properties

    The repository ships two Python scripts, [scripts/util.py] (recipe
    generation, conda build, publishing, staging directory) and
    [scripts/test.py] (sequential test runner).  Both are thin sequential
    wrappers around string templating, the filesystem and subprocesses.

    The embedding keeps the scripts' structure: pure functions are Rocq
    functions, raising code returns a [result], and code with effects runs in
    a small state-and-exception monad over an explicit world (filesystem,
    event log, clock).  External programs ([pixi], [mojo]) and the YAML
    serializer are parameters of the development. *)

From Stdlib Require Import String Ascii List ZArith Bool Arith Lia.
From Stdlib Require Import Permutation Sorted DecimalString.
Import ListNotations.
Open Scope string_scope.

(** * The Python runtime fragment the scripts use *)

Module Py.

(** Exceptions the modelled code can raise.  [SystemExit] is what the builtin
    [exit(code)] raises; [OtherError] stands for any exception a library call
    raises that the scripts do not name (its class and its [str]). *)
Inductive exn : Type :=
| SystemExit (code : Z)
| IndexError
| KeyError (key : string)
| TypeError
| ZeroDivisionError
| FileNotFoundError (path : string)
| FileExistsError (path : string)
| NotADirectoryError (path : string)
| IsADirectoryError (path : string)
| CalledProcessError (cmd : list string) (returncode : Z)
| OtherError (class message : string).

(** [isinstance(e, subprocess.CalledProcessError)] *)
Definition is_CalledProcessError (e : exn) : bool :=
  match e with CalledProcessError _ _ => true | _ => false end.

Inductive result (A : Type) : Type :=
| Ok (a : A)
| Raise (e : exn).
Arguments Ok {A} a.
Arguments Raise {A} e.

Definition rbind {A B} (r : result A) (k : A -> result B) : result B :=
  match r with Ok a => k a | Raise e => Raise e end.

Declare Scope result_scope.
Delimit Scope result_scope with result.
Notation "x <- r ;; k" := (rbind r (fun x => k))
  (at level 61, r at next level, right associativity) : result_scope.

(** [mapM] in the exception monad: the first failure wins, as in a Python
    [for] loop that appends to a list. *)
Fixpoint rmap {A B} (f : A -> result B) (l : list A) : result (list B) :=
  match l with
  | [] => Ok []
  | a :: l' =>
      match f a with
      | Raise e => Raise e
      | Ok b => match rmap f l' with
                | Raise e => Raise e
                | Ok bs => Ok (b :: bs)
                end
      end
  end.

(** ** Strings *)

(** [s[i]] for a non-negative index: raises [IndexError] out of range. *)
Definition str_getitem (s : string) (i : nat) : result ascii :=
  match String.get i s with
  | Some c => Ok c
  | None => Raise IndexError
  end.

(** [s[n:]]: slicing clamps, it never raises. *)
Fixpoint slice_from (n : nat) (s : string) : string :=
  match n, s with
  | O, _ => s
  | S _, EmptyString => EmptyString
  | S n', String _ s' => slice_from n' s'
  end.

(** [s[:n]] *)
Fixpoint slice_to (n : nat) (s : string) : string :=
  match n, s with
  | O, _ => EmptyString
  | S _, EmptyString => EmptyString
  | S n', String c s' => String c (slice_to n' s')
  end.

(** [s.startswith(p)] *)
Definition startswith (p s : string) : bool := String.prefix p s.

(** [s.endswith(p)] *)
Definition endswith (p s : string) : bool :=
  (String.length p <=? String.length s)%nat
  && String.eqb (slice_from (String.length s - String.length p) s) p.

(** [c in s] for a one-character [c] *)
Fixpoint contains_char (c : ascii) (s : string) : bool :=
  match s with
  | EmptyString => false
  | String d s' => Ascii.eqb c d || contains_char c s'
  end.

(** The text before the first space and the text after it; the whole string
    and the empty string when there is no space.  This is what
    [s.split(" ", 1)] returns, and it is how "token" is read below. *)
Fixpoint split_space (s : string) : string * string :=
  match s with
  | EmptyString => (EmptyString, EmptyString)
  | String c s' =>
      if Ascii.eqb c " " then (EmptyString, s')
      else let '(a, b) := split_space s' in (String c a, b)
  end.

(** [str(n)] for a non-negative integer *)
Definition str_nat (n : nat) : string :=
  NilZero.string_of_uint (Nat.to_uint n).

(** [s * n] *)
Fixpoint str_repeat (s : string) (n : nat) : string :=
  match n with
  | O => EmptyString
  | S n' => s ++ str_repeat s n'
  end.

(** The newline character, written ["\n"] in the source. *)
Definition nl : string := String (ascii_of_nat 10) EmptyString.

(** [sorted(l)] on strings: ascending in the order of [str], character by
    character.  Any correct sort returns the same list; this one inserts. *)
Fixpoint insert_sorted (x : string) (l : list string) : list string :=
  match l with
  | [] => [x]
  | y :: l' => if String.leb x y then x :: l else y :: insert_sorted x l'
  end.

Definition sorted (l : list string) : list string :=
  fold_right insert_sorted [] l.

(** ** Computations with state and exceptions

    A computation takes the state, returns a value or raises, and leaves a
    state behind in both cases: effects done before an exception stay done. *)

Definition M (S A : Type) : Type := S -> result A * S.

Definition ret {S A} (a : A) : M S A := fun s => (Ok a, s).

Definition raise {S A} (e : exn) : M S A := fun s => (Raise e, s).

Definition bind {S A B} (m : M S A) (k : A -> M S B) : M S B :=
  fun s => match m s with
           | (Ok a, s') => k a s'
           | (Raise e, s') => (Raise e, s')
           end.

(** A pure raising computation inside [M]. *)
Definition lift {S A} (r : result A) : M S A := fun s => (r, s).

Declare Scope monad_scope.
Delimit Scope monad_scope with monad.
Notation "x <~ m ;; k" := (bind m (fun x => k))
  (at level 61, m at next level, right associativity) : monad_scope.
Notation "m ;;; k" := (bind m (fun _ => k))
  (at level 61, right associativity) : monad_scope.

(** [for x in l: body(x)] *)
Fixpoint for_each {S A} (l : list A) (body : A -> M S unit) : M S unit :=
  match l with
  | [] => ret tt
  | a :: l' => bind (body a) (fun _ => for_each l' body)
  end.

(** [try: body / except subprocess.CalledProcessError: pass] *)
Definition try_except_CalledProcessError_pass {S} (body : M S unit) : M S unit :=
  fun s => match body s with
           | (Raise e, s') =>
               if is_CalledProcessError e then (Ok tt, s') else (Raise e, s')
           | r => r
           end.

(** ** Subprocesses *)

(** How [subprocess.run(argv)] ends once the call is made: the program ran and
    exited with a return code (with the text it wrote), or the call itself
    raised because the program could not be run (for instance
    [FileNotFoundError] when the executable is missing); then [class] is the
    exception's class and [message] its [str].  What [subprocess.run] raises
    ([OSError], [ValueError], [SubprocessError], [UnicodeDecodeError]) derives
    from [Exception]; signals delivered to the interpreter from outside
    ([KeyboardInterrupt]) are not part of the model. *)
Inductive outcome : Type :=
| Completed (returncode : Z) (stdout stderr : string)
| LaunchFailed (class message : string).

End Py.

Import Py.
Local Open Scope result_scope.

(** * scripts/util.py: the dependency constraint formatter *)

Module Formatter.

(** [version[0] in {"<", ">"}] *)
Definition in_lt_gt (c : ascii) : bool :=
  Ascii.eqb c "<" || Ascii.eqb c ">".

Definition format_dependency (name version : string) : result string :=
  let start := 0%nat in
  let operator := "==" in
  c0 <- str_getitem version 0 ;;
  os <- (if in_lt_gt c0 then
           c1 <- str_getitem version 1 ;;
           if negb (Ascii.eqb c1 "=") then
             Ok (String c0 EmptyString, 1%nat)
           else
             Ok (slice_to 2 version, 2%nat)
         else Ok (operator, start)) ;;
  let '(operator, start) := os in
  Ok (name ++ " " ++ operator ++ " " ++ slice_from start version).

(** The specifier starts with [<] or [>]. *)
Definition lt_gt_head (s : string) : bool :=
  match s with
  | String c _ => in_lt_gt c
  | EmptyString => false
  end.

Definition operators : list string := ["=="; "<"; ">"; "<="; ">="].

End Formatter.

(** * scripts/util.py: filesystem, configuration and commands *)

Module Util.

Local Open Scope monad_scope.

(** ** The filesystem

    Paths are the strings the script builds; they are taken as normalised, and
    two different strings name two different entries.  The entries are kept in
    the order in which a directory scan enumerates them. *)

Inductive node : Type :=
| File (content : string)
| Dir.

Definition filesystem : Type := list (string * node).

Fixpoint fs_lookup (p : string) (fs : filesystem) : option node :=
  match fs with
  | [] => None
  | (q, n) :: fs' => if String.eqb q p then Some n else fs_lookup p fs'
  end.

Definition fs_exists (p : string) (fs : filesystem) : bool :=
  match fs_lookup p fs with Some _ => true | None => false end.

Definition fs_delete (p : string) (fs : filesystem) : filesystem :=
  filter (fun e => negb (String.eqb (fst e) p)) fs.

(** Create or replace the entry at [p]. *)
Fixpoint fs_put (p : string) (n : node) (fs : filesystem) : filesystem :=
  match fs with
  | [] => [(p, n)]
  | (q, m) :: fs' =>
      if String.eqb q p then (q, n) :: fs' else (q, m) :: fs_put p n fs'
  end.

(** [p] is [d] itself or lies below it. *)
Definition under (d p : string) : bool :=
  String.eqb p d || startswith (d ++ "/") p.

(** Everything up to the last slash; [None] for a bare name, which lives in
    the current directory. *)
Fixpoint dirname (p : string) : option string :=
  match p with
  | EmptyString => None
  | String c r =>
      match dirname r with
      | Some d => Some (String c d)
      | None => if Ascii.eqb c "/" then Some EmptyString else None
      end
  end.

(** Creating an entry needs its parent directory: nothing is raised when the
    parent is the current directory or the root. *)
Definition check_parent (p : string) (fs : filesystem) : result unit :=
  match dirname p with
  | None => Ok tt
  | Some EmptyString => Ok tt
  | Some d =>
      match fs_lookup d fs with
      | Some Dir => Ok tt
      | Some (File _) => Raise (NotADirectoryError p)
      | None => Raise (FileNotFoundError p)
      end
  end.

(** [s] without the prefix [pre], when it has it. *)
Fixpoint strip_prefix (pre s : string) : option string :=
  match pre, s with
  | EmptyString, _ => Some s
  | String a pre', String b s' =>
      if Ascii.eqb a b then strip_prefix pre' s' else None
  | String _ _, EmptyString => None
  end.

(** The pattern [*.conda] of [glob]: a single path component, not hidden. *)
Definition match_star_conda (name : string) : bool :=
  negb (contains_char "/" name)
  && negb (startswith "." name)
  && endswith ".conda" name.

(** [glob.glob(f'{dir}/*.conda')]: the entries directly inside [dir] whose
    name matches, files and directories alike, in enumeration order.  [dir]
    is taken to hold no glob metacharacter. *)
Definition glob_conda (dir : string) (fs : filesystem) : list string :=
  map fst
    (filter (fun e => match strip_prefix (dir ++ "/") (fst e) with
                      | Some name => match_star_conda name
                      | None => false
                      end) fs).

(** ** The world: filesystem and trace of effects *)

Inductive event : Type :=
| EvPrint (text : string)
| EvRun (argv : list string)
| EvRemove (path : string)
| EvRmtree (path : string)
| EvMkdir (path : string)
| EvWrite (path content : string).

Record world : Type := mkWorld { fs : filesystem; log : list event }.

Definition emit (e : event) : M world unit :=
  fun w => (Ok tt, mkWorld (fs w) (log w ++ [e])%list).

Definition print (text : string) : M world unit := emit (EvPrint text).

Definition set_fs (f : filesystem) : M world unit :=
  fun w => (Ok tt, mkWorld f (log w)).

Definition get_fs : M world filesystem := fun w => (Ok (fs w), w).

(** [Path.exists()] *)
Definition Path_exists (p : string) : M world bool :=
  f <~ get_fs ;; ret (fs_exists p f).

(** [os.remove(p)] *)
Definition os_remove (p : string) : M world unit :=
  f <~ get_fs ;;
  match fs_lookup p f with
  | Some (File _) => set_fs (fs_delete p f) ;;; emit (EvRemove p)
  | Some Dir => raise (IsADirectoryError p)
  | None => raise (FileNotFoundError p)
  end.

(** [shutil.rmtree(p)] *)
Definition shutil_rmtree (p : string) : M world unit :=
  f <~ get_fs ;;
  match fs_lookup p f with
  | Some Dir =>
      set_fs (filter (fun e => negb (under p (fst e))) f) ;;; emit (EvRmtree p)
  | Some (File _) => raise (NotADirectoryError p)
  | None => raise (FileNotFoundError p)
  end.

(** [Path.mkdir()] *)
Definition Path_mkdir (p : string) : M world unit :=
  f <~ get_fs ;;
  if fs_exists p f then raise (FileExistsError p)
  else
    lift (check_parent p f) ;;;
    set_fs (f ++ [(p, Dir)])%list ;;; emit (EvMkdir p).

(** [Path.read_text()] *)
Definition Path_read_text (p : string) : M world string :=
  f <~ get_fs ;;
  match fs_lookup p f with
  | Some (File c) => ret c
  | Some Dir => raise (IsADirectoryError p)
  | None => raise (FileNotFoundError p)
  end.

(** [with Path(p).open("w+") as f: f.write(content)] *)
Definition Path_write (p content : string) : M world unit :=
  f <~ get_fs ;;
  match fs_lookup p f with
  | Some Dir => raise (IsADirectoryError p)
  | _ =>
      lift (check_parent p f) ;;;
      set_fs (fs_put p (File content) f) ;;; emit (EvWrite p content)
  end.

(** ** Project configuration: the parsed [pixi.toml]

    The values the scripts read are strings and tables; a table keeps its
    keys in file order, which is the iteration order of the Python [dict]. *)

#[warnings="-register-all"]
Inductive toml : Type :=
| TStr (s : string)
| TTable (items : list (string * toml)).

Fixpoint lookup_item (key : string) (kv : list (string * toml)) : option toml :=
  match kv with
  | [] => None
  | (k, v) :: kv' => if String.eqb k key then Some v else lookup_item key kv'
  end.

(** [t[key]] *)
Definition getitem (t : toml) (key : string) : result toml :=
  match t with
  | TTable kv =>
      match lookup_item key kv with
      | Some v => Ok v
      | None => Raise (KeyError key)
      end
  | TStr _ => Raise TypeError
  end.

(** [t.items()] *)
Definition items (t : toml) : result (list (string * toml)) :=
  match t with
  | TTable kv => Ok kv
  | TStr _ => Raise (OtherError "AttributeError" "'str' object has no attribute 'items'")
  end.

(** The recipe document, field by field as [generate_recipe] fills its
    nested dictionary.  A [source] entry is the value under its ["path"]. *)
Record recipe : Type := mkRecipe {
  context_version : string;
  package_name : toml;
  package_version : toml;
  source : list toml;
  build_script : list string;
  requirements_run : list string;
  about_homepage : toml;
  about_license : toml;
  about_license_file : toml;
  about_summary : toml;
  about_description : string;
  about_repository : toml
}.

(** What is fixed when the module is imported (its globals) and what lies
    outside the script: the external programs, which may change the
    filesystem, the YAML serializer and the [repr] of a table.  A program is
    a function of its command line and of the filesystem it finds. *)
Record env : Type := mkEnv {
  TEMP_DIR : string;
  CONDA_BUILD_PATH : string;
  PROJECT_CONFIG : toml;
  run_program : list string -> filesystem -> outcome * filesystem;
  yaml_dump : recipe -> string;
  repr_table : list (string * toml) -> string
}.

Definition RECIPE_PATH : string := "recipe.yaml".

(** [PROJECT_CONFIG[a][b]] *)
Definition config2 (E : env) (a b : string) : result toml :=
  (t <- getitem (PROJECT_CONFIG E) a ;; getitem t b)%result.

(** A value inside an f-string. *)
Definition format_value (E : env) (v : toml) : string :=
  match v with
  | TStr s => s
  | TTable kv => repr_table E kv
  end.

(** [format_dependency] applied to a configuration value: indexing a table
    with [0] raises [KeyError]. *)
Definition format_dependency_value (name : string) (version : toml) : result string :=
  match version with
  | TStr s => Formatter.format_dependency name s
  | TTable _ => Raise (KeyError "0")
  end.

(** [subprocess.run(argv, check=True)] *)
Definition subprocess_run_check (E : env) (argv : list string) : M world unit :=
  emit (EvRun argv) ;;;
  f <~ get_fs ;;
  let '(o, f') := run_program E argv f in
  set_fs f' ;;;
  match o with
  | Completed rc _ _ =>
      if Z.eqb rc 0 then ret tt else raise (CalledProcessError argv rc)
  | LaunchFailed c m => raise (OtherError c m)
  end.

Definition generate_recipe (E : env) : M world unit :=
  let package_name_ := "zlib" in
  name <~ lift (config2 E "package" "name") ;;
  version <~ lift (config2 E "package" "version") ;;
  license_file <~ lift (config2 E "workspace" "license-file") ;;
  let source_ := [TStr "src"; license_file] in
  let script :=
    ["mkdir -p ${PREFIX}/lib/mojo";
     "pixi run mojo package " ++ package_name_
       ++ " -o ${PREFIX}/lib/mojo/" ++ package_name_ ++ ".mojopkg"] in
  deps <~ lift (d <- getitem (PROJECT_CONFIG E) "dependencies" ;; items d)%result ;;
  run <~ lift (rmap (fun dv => format_dependency_value (fst dv) (snd dv)) deps) ;;
  homepage <~ lift (config2 E "workspace" "homepage") ;;
  license <~ lift (config2 E "workspace" "license") ;;
  license_file' <~ lift (config2 E "workspace" "license-file") ;;
  summary <~ lift (config2 E "workspace" "description") ;;
  description <~ Path_read_text "README.md" ;;
  repository <~ lift (config2 E "workspace" "repository") ;;
  let recipe_ :=
    mkRecipe "13.4.2" name version source_ script run
             homepage license license_file' summary description repository in
  Path_write "recipe.yaml" (yaml_dump E recipe_).

Definition upload_command (channel file : string) : list string :=
  ["pixi"; "upload"; "https://prefix.dev/api/v1/upload/" ++ channel; file].

Definition publish (E : env) (channel : string) : M world unit :=
  print ("Publishing packages to: " ++ channel ++ ", from "
         ++ CONDA_BUILD_PATH E ++ ".") ;;;
  f <~ get_fs ;;
  for_each (glob_conda (CONDA_BUILD_PATH E) f) (fun file =>
    print ("Uploading " ++ file ++ " to " ++ channel ++ "...") ;;;
    try_except_CalledProcessError_pass
      (subprocess_run_check E (upload_command channel file)) ;;;
    os_remove file).

Definition remove_temp_directory (E : env) : M world unit :=
  present <~ Path_exists (TEMP_DIR E) ;;
  if present : bool then
    print "Removing temp directory." ;;;
    shutil_rmtree (TEMP_DIR E)
  else ret tt.

Definition package_command (E : env) (package : string) : list string :=
  ["mojo"; "package"; "src/" ++ package; "-o";
   TEMP_DIR E ++ "/" ++ package ++ ".mojopkg"].

Definition prepare_temp_directory (E : env) : M world unit :=
  remove_temp_directory E ;;;
  Path_mkdir (TEMP_DIR E) ;;;
  package <~ lift (config2 E "package" "name") ;;
  subprocess_run_check E (package_command E (format_value E package)).

Definition build_command (E : env) : list string :=
  ["pixi"; "build"; "-o"; CONDA_BUILD_PATH E].

Definition build_conda_package (E : env) : M world unit :=
  present <~ Path_exists RECIPE_PATH ;;
  (if negb present then generate_recipe E else ret tt) ;;;
  subprocess_run_check E (build_command E) ;;;
  os_remove "recipe.yaml".

End Util.

(** * scripts/test.py: the sequential test runner *)

Module TestRunner.

Local Open Scope monad_scope.

(** ** Test discovery *)

(** A directory as [os.walk] sees it: the names of its non-directory entries
    and its sub-directories, each in enumeration order. *)
#[warnings="-register-all"]
Inductive dirtree : Type :=
| DirNode (files : list string) (subdirs : list (string * dirtree)).

(** [os.path.join(a, b)] *)
Definition os_path_join (a b : string) : string :=
  if startswith "/" b then b
  else if String.eqb a "" || endswith "/" a then a ++ b
  else a ++ "/" ++ b.

(** [os.walk(top)], top-down: one triple [(root, dirs, files)] per directory. *)
Fixpoint os_walk_tree (top : string) (t : dirtree)
  : list (string * list string * list string) :=
  match t with
  | DirNode files subdirs =>
      (top, map fst subdirs, files)
        :: flat_map (fun d => os_walk_tree (os_path_join top (fst d)) (snd d))
                    subdirs
  end.

(** [os.walk] of a path that is not a directory yields nothing. *)
Definition os_walk (top : string) (t : option dirtree)
  : list (string * list string * list string) :=
  match t with
  | Some d => os_walk_tree top d
  | None => []
  end.

Definition find_mojo_test_files (tests_dir : string) (t : option dirtree)
  : list string :=
  let test_files :=
    flat_map (fun '(root, _, files) =>
                map (os_path_join root)
                    (filter (fun file => endswith ".mojo" file) files))
             (os_walk tests_dir t) in
  sorted test_files.

(** ** Running tests *)

(** Floating-point numbers are kept abstract: the runner only subtracts two
    clock readings, divides by a count and formats with [:.2f]. *)
Class FloatOps : Type := {
  float : Type;
  float_sub : float -> float -> float;
  float_div_int : float -> Z -> float;
  format_2f : float -> string
}.

(** What lies outside the script: the clock, read once per [time.time()]
    call, the test command, and the [tests] directory. *)
Record platform `{FloatOps} : Type := mkPlatform {
  clock : nat -> float;
  run_program : list string -> outcome;
  tests : option dirtree
}.

Inductive event : Type :=
| Printed (text : string)
| Ran (argv : list string)
| Divided (divisor : Z).

(** Number of clock readings taken so far, and the trace. *)
Record state : Type := mkState { ticks : nat; trace : list event }.

Section Runner.

Context `{FloatOps} (P : platform).

Definition emit (e : event) : M state unit :=
  fun s => (Ok tt, mkState (ticks s) (trace s ++ [e])%list).

Definition print (text : string) : M state unit := emit (Printed text).

(** [time.time()] *)
Definition time_time : M state float :=
  fun s => (Ok (clock P (ticks s)), mkState (S (ticks s)) (trace s)).

(** [subprocess.run(argv, capture_output=True, text=True)]: its outcome is
    returned as a value, [LaunchFailed] standing for the exception raised. *)
Definition subprocess_run (argv : list string) : M state outcome :=
  emit (Ran argv) ;;; ret (run_program P argv).

(** [x / n] with [n] an [int] *)
Definition truediv (x : float) (n : Z) : M state float :=
  emit (Divided n) ;;;
  if Z.eqb n 0 then raise ZeroDivisionError else ret (float_div_int x n).

Definition test_command (test_file : string) : list string :=
  ["pixi"; "run"; "test"; test_file].

Definition run_test (test_file : string)
  : M state (bool * float * string * string) :=
  start_time <~ time_time ;;
  result_ <~ subprocess_run (test_command test_file) ;;
  match result_ with
  | Completed returncode stdout stderr =>
      now <~ time_time ;;
      let duration := float_sub now start_time in
      ret (Z.eqb returncode 0, duration, stdout, stderr)
  | LaunchFailed _ message =>
      now <~ time_time ;;
      let duration := float_sub now start_time in
      ret (false, duration, "", message)
  end.

(** The body of [for i, test_file in enumerate(test_files, 1)], with the
    counters [passed] and [failed] threaded through. *)
Fixpoint run_loop (i total : nat) (test_files : list string)
  (passed failed : nat) : M state (nat * nat) :=
  match test_files with
  | [] => ret (passed, failed)
  | test_file :: rest =>
      print (nl ++ "[" ++ str_nat i ++ "/" ++ str_nat total ++ "] Running: "
             ++ test_file) ;;;
      r <~ run_test test_file ;;
      let '(success, duration, stdout, stderr) := r in
      counters <~
        (if success : bool then
           print (" PASSED in " ++ format_2f duration ++ "s") ;;;
           ret (passed + 1, failed)%nat
         else
           print (" FAILED in " ++ format_2f duration ++ "s") ;;;
           (if negb (String.eqb stderr "")
            then print ("Error output:" ++ nl ++ stderr)
            else ret tt) ;;;
           ret (passed, failed + 1)%nat) ;;
      run_loop (S i) total rest (fst counters) (snd counters)
  end.

Definition main : M state unit :=
  let tests_dir := "tests" in
  let test_files := find_mojo_test_files tests_dir (tests P) in
  match test_files with
  | [] => print "No .mojo test files found in tests directory"
  | _ :: _ =>
      print ("Found " ++ str_nat (List.length test_files) ++ " test files") ;;;
      print (str_repeat "=" 80) ;;;
      total_start_time <~ time_time ;;
      counters <~ run_loop 1 (List.length test_files) test_files 0 0 ;;
      let '(passed, failed) := counters in
      now <~ time_time ;;
      let total_duration := float_sub now total_start_time in
      print (nl ++ str_repeat "=" 80) ;;;
      print "Test Summary:" ;;;
      print ("  Total files: " ++ str_nat (List.length test_files)) ;;;
      print ("  Passed: " ++ str_nat passed) ;;;
      print ("  Failed: " ++ str_nat failed) ;;;
      print ("  Total runtime: " ++ format_2f total_duration ++ "s") ;;;
      average <~ truediv total_duration (Z.of_nat (List.length test_files)) ;;
      print ("  Average per file: " ++ format_2f average ++ "s") ;;;
      if (0 <? failed)%nat then raise (SystemExit 1) else ret tt
  end.

End Runner.

(** The exit status of the process that ran [main()] from a fresh state:
    [0] on a normal return, the code of [SystemExit], and [1] after any other
    uncaught exception. *)
Definition exit_status (r : result unit) : Z :=
  match r with
  | Ok _ => 0
  | Raise (SystemExit code) => code
  | Raise _ => 1
  end.

Definition initial : state := mkState 0 [].

End TestRunner.

(** * The vocabulary of the properties *)

Module UtilSpec.

Import Util.

Local Open Scope monad_scope.

(** The package-build line of the build script, for a package name. *)
Definition build_line (package : string) : string :=
  "pixi run mojo package " ++ package
    ++ " -o ${PREFIX}/lib/mojo/" ++ package ++ ".mojopkg".

(** The programs run and the files removed, in the order of the trace. *)
Definition runs (l : list event) : list (list string) :=
  flat_map (fun e => match e with EvRun argv => [argv] | _ => [] end) l.

Definition removals (l : list event) : list string :=
  flat_map (fun e => match e with EvRemove p => [p] | _ => [] end) l.

Definition delete_all (l : list string) (f : filesystem) : filesystem :=
  fold_left (fun f p => fs_delete p f) l f.

Definition regular_files (l : list string) (f : filesystem) : Prop :=
  forall file, In file l -> exists c, fs_lookup file f = Some (File c).

(** The entries outside the staging directory, and those inside it (the
    directory itself included). *)
Definition outside (d : string) (f : filesystem) : filesystem :=
  filter (fun e => negb (under d (fst e))) f.

Definition inside (d : string) (f : filesystem) : filesystem :=
  filter (fun e => under d (fst e)) f.

(** No entry lies below a staging directory that does not exist. *)
Definition staging_consistent (d : string) (f : filesystem) : Prop :=
  fs_exists d f = false -> forall e, In e f -> under d (fst e) = false.

Section WithProject.

Variable E : env.

(** The dependency mapping of the configuration, in iteration order. *)
Definition dependencies : result (list (string * toml)) :=
  (d <- getitem (PROJECT_CONFIG E) "dependencies" ;; items d)%result.

(** The first step of [build_conda_package]: generate the recipe unless a
    file is there. *)
Definition ensure_recipe : M world unit :=
  (present <~ Path_exists RECIPE_PATH ;;
   if negb present then generate_recipe E else ret tt)%monad.

Definition artifact_path (package : string) : string :=
  TEMP_DIR E ++ "/" ++ package ++ ".mojopkg".

(** What the script relies on from [mojo package]: when it exits with
    status 0 it has written its output file and changed nothing else. *)
Definition packager_writes_output : Prop :=
  forall package f out err f',
    run_program E (package_command E package) f = (Completed 0 out err, f') ->
    exists c, f' = fs_put (artifact_path package) (File c) f.

(** The steps of [prepare_temp_directory] after the removal. *)
Definition populate : M world unit :=
  (Path_mkdir (TEMP_DIR E) ;;;
   package <~ lift (config2 E "package" "name") ;;
   subprocess_run_check E (package_command E (format_value E package)))%monad.

Section WithChannel.

Variable channel : string.

(** The body of the loop of [publish], for one file. *)
Definition publish_body (file : string) : M world unit :=
  (print ("Uploading " ++ file ++ " to " ++ channel ++ "...") ;;;
   try_except_CalledProcessError_pass
     (subprocess_run_check E (upload_command channel file)) ;;;
   os_remove file)%monad.

Definition publish_header : event :=
  EvPrint ("Publishing packages to: " ++ channel ++ ", from "
           ++ CONDA_BUILD_PATH E ++ ".").

Definition uploading (file : string) : event :=
  EvPrint ("Uploading " ++ file ++ " to " ++ channel ++ "...").

(** What the loop does for a file whose upload ends with an exit code. *)
Definition file_events (file : string) : list event :=
  [uploading file; EvRun (upload_command channel file); EvRemove file].

(** The upload tool runs to an exit code on each of the files and leaves the
    local filesystem as it is. *)
Definition uploads_exit (l : list string) : Prop :=
  forall file f, In file l ->
    exists rc out err,
      run_program E (upload_command channel file) f = (Completed rc out err, f).

End WithChannel.

End WithProject.

End UtilSpec.

Module RunnerSpec.

Import TestRunner.

Definition str_le (a b : string) : Prop := String.leb a b = true.

(** The paths [find_mojo_test_files] collects before sorting, for a tree
    rooted at [top]. *)
Definition candidates (top : string) (t : dirtree) : list string :=
  flat_map (fun '(root, _, files) =>
              map (os_path_join root) (filter (fun file => endswith ".mojo" file) files))
           (os_walk_tree top t).

(** The directory [dir], holding the non-directory entries [files], is [top]
    or lies below it in the tree. *)
Inductive directory_in : string -> dirtree -> string -> list string -> Prop :=
| directory_here (top : string) (files : list string) subdirs :
    directory_in top (DirNode files subdirs) top files
| directory_below (top : string) (files : list string) subdirs name sub dir fl :
    In (name, sub) subdirs ->
    directory_in (os_path_join top name) sub dir fl ->
    directory_in top (DirNode files subdirs) dir fl.

(** [p] is the path of a file of the tree whose name ends in [.mojo]. *)
Definition mojo_file_path (top : string) (t : dirtree) (p : string) : Prop :=
  exists dir files name,
    directory_in top t dir files /\ In name files
    /\ endswith ".mojo" name = true /\ p = os_path_join dir name.

(** The same tree, enumerated in another order: the entries of a directory
    are permuted, at any depth. *)
Inductive reordered : dirtree -> dirtree -> Prop :=
| reordered_here files files' subdirs subdirs' :
    Permutation files files' -> Permutation subdirs subdirs' ->
    reordered (DirNode files subdirs) (DirNode files' subdirs')
| reordered_below files pre name sub sub' post :
    reordered sub sub' ->
    reordered (DirNode files (pre ++ (name, sub) :: post))
              (DirNode files (pre ++ (name, sub') :: post))
| reordered_trans t1 t2 t3 :
    reordered t1 t2 -> reordered t2 t3 -> reordered t1 t3.

(** The commands run and the divisors used, in the order of the trace. *)
Definition ran (l : list event) : list (list string) :=
  flat_map (fun e => match e with Ran argv => [argv] | _ => [] end) l.

Definition divisors (l : list event) : list Z :=
  flat_map (fun e => match e with Divided n => [n] | _ => [] end) l.

Definition notice : event :=
  Printed "No .mojo test files found in tests directory".

Section WithPlatform.

Context `{FloatOps} (P : platform).

(** The duration [run_test] measures when it starts in state [s]. *)
Definition duration_at (s : state) : float :=
  float_sub (clock P (S (ticks s))) (clock P (ticks s)).

(** The test command, run on the file, exits with status 0. *)
Definition passes (test_file : string) : bool :=
  match run_program P (test_command test_file) with
  | Completed returncode _ _ => Z.eqb returncode 0
  | LaunchFailed _ _ => false
  end.

(** The number of files that do not pass, and of files that pass. *)
Definition failures (files : list string) : nat :=
  List.length (filter (fun f => negb (passes f)) files).

Definition successes (files : list string) : nat :=
  List.length (filter passes files).

(** The files a run of [main] discovers, and how many of them fail. *)
Definition discovered : list string :=
  find_mojo_test_files "tests" (tests P).

Definition failed_count : nat := failures discovered.

End WithPlatform.

End RunnerSpec.

(** * A concrete project, used to run the definitions *)

Module Sample.

Import Util.

Definition config : toml :=
  TTable
    [("workspace",
      TTable [("name", TStr "mojo-zlib");
              ("description", TStr "zlib bindings for Mojo");
              ("homepage", TStr "https://example.org/mojo-zlib");
              ("license", TStr "MIT");
              ("license-file", TStr "LICENSE");
              ("repository", TStr "https://example.org/mojo-zlib.git")]);
     ("package", TTable [("name", TStr "zlib"); ("version", TStr "0.1.0")]);
     ("dependencies",
      TTable [("max", TStr ">=25.4"); ("python", TStr "<3.13");
              ("libz", TStr "1.3.1")])].

Definition not_found : outcome :=
  LaunchFailed "FileNotFoundError" "[Errno 2] No such file or directory".

(** External programs that work: an upload is refused for files named
    [bad.conda], a build leaves one artifact in the output directory, the
    packager writes its output file. *)
Definition programs (argv : list string) (f : filesystem) : outcome * filesystem :=
  match argv with
  | [prog; cmd; a; b] =>
      if String.eqb prog "pixi" && String.eqb cmd "upload" then
        (Completed (if endswith "bad.conda" b then 1 else 0) "" "", f)
      else if String.eqb prog "pixi" && String.eqb cmd "build" then
        (Completed 0 "" "", fs_put (b ++ "/zlib-0.1.0.conda") (File "conda") f)
      else (not_found, f)
  | [prog; cmd; src; o; out] =>
      if String.eqb prog "mojo" && String.eqb cmd "package" then
        (Completed 0 "" "", fs_put out (File "mojopkg") f)
      else (not_found, f)
  | _ => (not_found, f)
  end.

(** A build tool that exits with status 2, and no tool installed at all. *)
Definition programs_build_fails (argv : list string) (f : filesystem)
  : outcome * filesystem :=
  (Completed 2 "" "error: build failed", f).

Definition programs_missing (argv : list string) (f : filesystem)
  : outcome * filesystem :=
  (not_found, f).

(** An upload tool that cannot be started for [bad.conda]. *)
Definition programs_upload_breaks (argv : list string) (f : filesystem)
  : outcome * filesystem :=
  match argv with
  | [prog; cmd; a; b] =>
      if endswith "bad.conda" b
      then (LaunchFailed "PermissionError" "[Errno 13] Permission denied", f)
      else (Completed 0 "" "", f)
  | _ => (not_found, f)
  end.

Definition dump (r : recipe) : string :=
  String.concat nl (build_script r ++ requirements_run r).

Definition project (run : list string -> filesystem -> outcome * filesystem) : env :=
  mkEnv "/home/u/tmp" "/bld" config run dump (fun _ => "{...}").

Definition disk : filesystem :=
  [("/home/u", Dir); ("README.md", File "# mojo-zlib");
   ("/bld", Dir); ("/bld/a.conda", File "a"); ("/bld/notes.txt", File "n");
   ("/bld/bad.conda", File "b"); ("/bld/.hidden.conda", File "h")].

(** The same disk with a recipe left by the user and a stale staging
    directory. *)
Definition disk_used : filesystem :=
  (disk ++ [("recipe.yaml", File "mine"); ("/home/u/tmp", Dir);
            ("/home/u/tmp/old.mojopkg", File "old")])%list.

Definition start (f : filesystem) : world := mkWorld f [].

Definition E0 : env := project programs.
Definition w0 : world := start disk.
Definition w1 : world := start disk_used.

(** Clock readings in whole seconds stand in for floats. *)
Definition seconds : TestRunner.FloatOps :=
  {| TestRunner.float := Z;
     TestRunner.float_sub := Z.sub;
     TestRunner.float_div_int := Z.div;
     TestRunner.format_2f := fun _ => "0.00" |}.

Definition tests_tree : TestRunner.dirtree :=
  TestRunner.DirNode
    ["test_zlib.mojo"; "README.md"]
    [("unit", TestRunner.DirNode ["test_crc.mojo"; "test_adler.mojo"] []);
     ("data", TestRunner.DirNode ["sample.bin"] [])].

(** The test command fails for [test_crc.mojo], cannot be started for
    [test_adler.mojo], and passes otherwise. *)
Definition test_program (argv : list string) : outcome :=
  match argv with
  | [prog; cmd; sub; file] =>
      if endswith "test_crc.mojo" file then Completed 1 "" "assertion failed"
      else if endswith "test_adler.mojo" file then not_found
      else Completed 0 "ok" ""
  | _ => not_found
  end.

Definition runner (t : option TestRunner.dirtree)
  : @TestRunner.platform seconds :=
  @TestRunner.mkPlatform seconds (fun n => Z.of_nat n) test_program t.

End Sample.

(** * Further vocabulary: error behaviour and composition *)

Module UtilMore.

Import Formatter Util UtilSpec.

(** A computation that never changes the state, and one that leaves the
    state as it found it whenever it raises. *)
Definition keeps_state {S A} (m : M S A) : Prop :=
  forall s r s', m s = (r, s') -> s' = s.

Definition fails_clean {S A} (m : M S A) : Prop :=
  forall s e s', m s = (Raise e, s') -> s' = s.

(** A specifier [format_dependency] accepts: not empty and not a bare
    [<] or [>]. *)
Definition specifier_ok (s : string) : bool :=
  match s with
  | EmptyString => false
  | String c EmptyString => negb (in_lt_gt c)
  | String _ (String _ _) => true
  end.

(** A dependency entry whose value is an accepted specifier string. *)
Definition entry_ok (dv : string * toml) : bool :=
  match snd dv with
  | TStr s => specifier_ok s
  | TTable _ => false
  end.

Section WithProject.

Variable E : env.

Definition has_key (a b : string) : Prop :=
  exists v, config2 E a b = Ok v.

(** The configuration holds every value [generate_recipe] reads, and every
    dependency is an accepted specifier string. *)
Definition config_complete : Prop :=
  has_key "package" "name"
  /\ has_key "package" "version"
  /\ Forall (has_key "workspace")
       ["license-file"; "homepage"; "license"; "description"; "repository"]
  /\ exists deps, dependencies E = Ok deps /\ forallb entry_ok deps = true.

(** [README.md] can be read and [recipe.yaml] can be written. *)
Definition files_ready (f : filesystem) : Prop :=
  (exists c, fs_lookup "README.md" f = Some (File c))
  /\ fs_lookup "recipe.yaml" f <> Some Dir.

End WithProject.

End UtilMore.

Module RunnerMore.

Import TestRunner.

(** What the runner looks at in the outcome of a test command: the return
    code, the error output of a command that did not exit with 0, and the
    message of an exception. *)
Definition observed (o : outcome) : outcome :=
  match o with
  | Completed returncode _ stderr =>
      Completed returncode "" (if Z.eqb returncode 0 then "" else stderr)
  | LaunchFailed _ message => LaunchFailed "" message
  end.

(** The platform with another test command. *)
Definition with_program `{FloatOps} (P : platform)
  (run : list string -> outcome) : platform :=
  @mkPlatform _ (clock P) run (tests P).

(** The three count lines of the summary. *)
Definition count_lines (total passed failed : nat) : list event :=
  [Printed ("  Total files: " ++ str_nat total);
   Printed ("  Passed: " ++ str_nat passed);
   Printed ("  Failed: " ++ str_nat failed)].

End RunnerMore.

Module SampleMore.

Import Util Sample.

(** A project directory without [README.md]. *)
Definition bare : world := start [("/bld", Dir)].

(** The sample disk with a directory named like an artifact. *)
Definition disk_with_directory : filesystem :=
  (disk ++ [("/bld/env.conda", Dir)])%list.

(** The sample disk with a regular file where the staging directory goes. *)
Definition disk_with_file : filesystem :=
  (disk ++ [("/home/u/tmp", File "not a directory")])%list.

(** A test command that writes nothing to standard output. *)
Definition quiet_test_program (argv : list string) : outcome :=
  RunnerMore.observed (test_program argv).

End SampleMore.

(** * Properties *)

(** ** Strings *)

Section StringFacts.

Lemma str_length_app (a b : string) :
  String.length (a ++ b) = (String.length a + String.length b)%nat.
Proof. induction a as [|c a IH]; simpl; [reflexivity | rewrite IH; reflexivity]. Qed.

Lemma app_assoc_str (a b c : string) : (a ++ b) ++ c = a ++ (b ++ c).
Proof. induction a as [|x a IH]; simpl; [reflexivity | rewrite IH; reflexivity]. Qed.

Lemma app_assoc_str_cons (a b : string) : (a ++ "/") ++ b = a ++ "/" ++ b.
Proof. apply app_assoc_str. Qed.

Lemma startswith_app (p s : string) : startswith p (p ++ s) = true.
Proof.
  unfold startswith. induction p as [|c p IH]; simpl.
  - destruct s; reflexivity.
  - destruct (ascii_dec c c) as [_|Hne]; [exact IH | contradiction].
Qed.

Lemma strip_prefix_Some (pre s r : string) :
  Util.strip_prefix pre s = Some r -> s = pre ++ r.
Proof.
  revert s. induction pre as [|a pre IH]; intros s Hs.
  - destruct s; simpl in Hs; inversion Hs; reflexivity.
  - destruct s as [|b s]; simpl in Hs; [discriminate|].
    destruct (Ascii.eqb a b) eqn:Hab; [|discriminate].
    apply Ascii.eqb_eq in Hab. subst b. simpl. f_equal. now apply IH.
Qed.

Lemma strip_prefix_app (pre s : string) :
  Util.strip_prefix pre (pre ++ s) = Some s.
Proof.
  induction pre as [|a pre IH]; simpl.
  - destruct s; reflexivity.
  - rewrite Ascii.eqb_refl. exact IH.
Qed.

End StringFacts.

Import Formatter.

(** ** The dependency constraint formatter *)

Section FormatterFacts.

Example format_dependency_plain :
  format_dependency "zlib" "1.2.3" = Ok "zlib == 1.2.3".
Proof. reflexivity. Qed.

Example format_dependency_ge :
  format_dependency "zlib" ">=1.2.3" = Ok "zlib >= 1.2.3".
Proof. reflexivity. Qed.

Example format_dependency_lt :
  format_dependency "zlib" "<1.0" = Ok "zlib < 1.0".
Proof. reflexivity. Qed.

Example format_dependency_empty :
  format_dependency "zlib" "" = Raise IndexError.
Proof. reflexivity. Qed.

Example format_dependency_bare_operator :
  format_dependency "zlib" ">" = Raise IndexError.
Proof. reflexivity. Qed.

Lemma split_space_app (a b : string) :
  contains_char " " a = false ->
  split_space (a ++ " " ++ b) = (a, b).
Proof.
  induction a as [|c a IH]; intros Ha.
  - reflexivity.
  - cbn [contains_char] in Ha. apply orb_false_iff in Ha.
    destruct Ha as [Hc Ha]. rewrite Ascii.eqb_sym in Hc.
    change (String c a ++ " " ++ b) with (String c (a ++ " " ++ b)).
    cbn [split_space]. rewrite Hc, (IH Ha). reflexivity.
Qed.

Lemma in_lt_gt_cases (c : ascii) :
  in_lt_gt c = true -> c = "<"%char \/ c = ">"%char.
Proof.
  unfold in_lt_gt. intros Hc. apply orb_true_iff in Hc.
  destruct Hc as [Hc|Hc]; apply Ascii.eqb_eq in Hc; auto.
Qed.

(** C1: for a name without a space and a specifier that is long enough,
    [format_dependency] returns [name op v]: [op] is the two-character
    prefix and [v] the rest from offset 2 when the specifier starts with
    [<] or [>] followed by [=]; [op] is the first character and [v] the rest
    from offset 1 when it starts with [<] or [>] not followed by [=];
    otherwise [op] is [==] and [v] the whole specifier.  The first token of
    the result is the name, the second is one of the five operators, and the
    remainder is the specifier without the detected operator prefix. *)
Theorem format_dependency_spec (n s : string) :
  (1 <= String.length s)%nat ->
  (lt_gt_head s = true -> (2 <= String.length s)%nat) ->
  contains_char " " n = false ->
  exists op v : string,
    format_dependency n s = Ok (n ++ " " ++ op ++ " " ++ v)
    /\ (lt_gt_head s = true -> String.get 1 s = Some "="%char ->
        op = slice_to 2 s /\ v = slice_from 2 s)
    /\ (lt_gt_head s = true -> String.get 1 s <> Some "="%char ->
        op = slice_to 1 s /\ v = slice_from 1 s)
    /\ (lt_gt_head s = false -> op = "==" /\ v = s)
    /\ In op operators
    /\ split_space (n ++ " " ++ op ++ " " ++ v) = (n, op ++ " " ++ v)
    /\ split_space (op ++ " " ++ v) = (op, v)
    /\ (if lt_gt_head s then s = op ++ v else s = v).
Proof.
  intros Hlen Hlen2 Hn.
  destruct s as [|c0 s]; [simpl in Hlen; lia|].
  simpl in Hlen2. unfold format_dependency, str_getitem. simpl.
  destruct (in_lt_gt c0) eqn:Hc0.
  - specialize (Hlen2 eq_refl).
    destruct s as [|c1 s]; [simpl in Hlen2; lia|]. simpl.
    destruct (Ascii.eqb c1 "=") eqn:Hc1; simpl.
    + apply Ascii.eqb_eq in Hc1. subst c1.
      exists (String c0 "="), s.
      destruct (in_lt_gt_cases _ Hc0); subst c0;
        (repeat split; try (intros; congruence);
         try (apply split_space_app; assumption); simpl; auto 10).
    + assert (Hne : Some c1 <> Some "="%char).
      { intros Heq. inversion Heq; subst c1.
        rewrite Ascii.eqb_refl in Hc1. discriminate. }
      exists (String c0 ""), (String c1 s).
      destruct (in_lt_gt_cases _ Hc0); subst c0;
        (repeat split; try (intros; congruence);
         try (apply split_space_app; assumption); simpl; auto 10).
  - exists "==", (String c0 s).
    repeat split; try (intros; congruence);
      try (apply split_space_app; assumption); simpl; auto 10.
Qed.

(** The theorem at the specifier [>=1.2.3]. *)
Lemma format_dependency_spec_witness :
  exists op v : string,
    format_dependency "zlib" ">=1.2.3" = Ok ("zlib" ++ " " ++ op ++ " " ++ v)
    /\ (lt_gt_head ">=1.2.3" = true -> String.get 1 ">=1.2.3" = Some "="%char ->
        op = slice_to 2 ">=1.2.3" /\ v = slice_from 2 ">=1.2.3")
    /\ (lt_gt_head ">=1.2.3" = true -> String.get 1 ">=1.2.3" <> Some "="%char ->
        op = slice_to 1 ">=1.2.3" /\ v = slice_from 1 ">=1.2.3")
    /\ (lt_gt_head ">=1.2.3" = false -> op = "==" /\ v = ">=1.2.3")
    /\ In op operators
    /\ split_space ("zlib" ++ " " ++ op ++ " " ++ v) = ("zlib", op ++ " " ++ v)
    /\ split_space (op ++ " " ++ v) = (op, v)
    /\ (if lt_gt_head ">=1.2.3" then ">=1.2.3" = op ++ v else ">=1.2.3" = v).
Proof.
  apply (format_dependency_spec "zlib" ">=1.2.3").
  - simpl; lia.
  - intros _; simpl; lia.
  - reflexivity.
Defined.

End FormatterFacts.

(** ** Computations: how a sequence succeeds or raises *)

Section MonadFacts.

Context {S : Type}.

Lemma bind_Ok_inv {A B} (m : M S A) (k : A -> M S B) s b s' :
  bind m k s = (Ok b, s') ->
  exists a s1, m s = (Ok a, s1) /\ k a s1 = (Ok b, s').
Proof.
  unfold bind. destruct (m s) as [[a|e] s1]; intros Hk.
  - exists a, s1. split; [reflexivity | exact Hk].
  - discriminate.
Qed.

Lemma bind_Ok_eq {A B} (m : M S A) (k : A -> M S B) s a s1 :
  m s = (Ok a, s1) -> bind m k s = k a s1.
Proof. unfold bind. intros ->. reflexivity. Qed.

Lemma bind_Raise_eq {A B} (m : M S A) (k : A -> M S B) s e s1 :
  m s = (Raise e, s1) -> bind m k s = (Raise e, s1).
Proof. unfold bind. intros ->. reflexivity. Qed.

Lemma lift_Ok_inv {A} (r : result A) (s s' : S) a :
  lift r s = (Ok a, s') -> r = Ok a /\ s' = s.
Proof. unfold lift. intros Heq. inversion Heq. split; reflexivity. Qed.

End MonadFacts.

(** Take a successful sequence apart, step by step. *)
Ltac inv_bind H :=
  let a := fresh "a" in
  let s := fresh "s" in
  let H1 := fresh "Hstep" in
  apply bind_Ok_inv in H; destruct H as (a & s & H1 & H).

Ltac inv_lift H :=
  let Hr := fresh "Hval" in
  let Hs := fresh "Hst" in
  apply lift_Ok_inv in H; destruct H as [Hr Hs]; subst.

(** A result list built by [rmap] lines up with its input. *)
Lemma rmap_Ok_Forall2 {A B} (f : A -> result B) (l : list A) (bs : list B) :
  rmap f l = Ok bs -> Forall2 (fun a b => f a = Ok b) l bs.
Proof.
  revert bs. induction l as [|a l IH]; simpl; intros bs Hbs.
  - inversion Hbs. constructor.
  - destruct (f a) as [b|e] eqn:Hfa; [|discriminate].
    destruct (rmap f l) as [bs'|e]; [|discriminate].
    inversion Hbs; subst. constructor; [exact Hfa | apply IH; reflexivity].
Qed.

(** ** The recipe generator *)

Import Util UtilSpec.

Section RecipeFacts.

Variable E : env.

Local Abbreviation dependencies := (UtilSpec.dependencies E).

Lemma build_line_zlib (n : string) :
  build_line n = build_line "zlib" -> n = "zlib".
Proof.
  unfold build_line. intros Heq.
  assert (Hlen : String.length n = 4%nat).
  { apply (f_equal String.length) in Heq.
    repeat rewrite str_length_app in Heq. simpl in Heq. lia. }
  destruct n as [|a [|b [|c [|d [|x n]]]]]; simpl in Hlen; try lia.
  simpl in Heq. inversion Heq. reflexivity.
Qed.

(** A successful [generate_recipe] has read every value it needs and has
    written the serialized document to [recipe.yaml]. *)
Lemma generate_recipe_Ok (w w' : world) :
  generate_recipe E w = (Ok tt, w') ->
  exists name version license_file deps run
         homepage license summary description repository,
    config2 E "package" "name" = Ok name
    /\ config2 E "package" "version" = Ok version
    /\ dependencies = Ok deps
    /\ rmap (fun dv => format_dependency_value (fst dv) (snd dv)) deps = Ok run
    /\ fs_lookup "README.md" (fs w) = Some (File description)
    /\ w' = (let r :=
               mkRecipe "13.4.2" name version [TStr "src"; license_file]
                 ["mkdir -p ${PREFIX}/lib/mojo"; build_line "zlib"] run
                 homepage license license_file summary description repository in
             mkWorld (fs_put "recipe.yaml" (File (yaml_dump E r)) (fs w))
                     (log w ++ [EvWrite "recipe.yaml" (yaml_dump E r)])).
Proof.
  unfold generate_recipe. intros Hrun.
  inv_bind Hrun. inv_lift Hstep. rename a into name.
  inv_bind Hrun. inv_lift Hstep. rename a into version.
  inv_bind Hrun. inv_lift Hstep. rename a into license_file.
  inv_bind Hrun. inv_lift Hstep. rename a into deps.
  inv_bind Hrun. inv_lift Hstep. rename a into run.
  inv_bind Hrun. inv_lift Hstep. rename a into homepage.
  inv_bind Hrun. inv_lift Hstep. rename a into license.
  inv_bind Hrun. inv_lift Hstep. rename a into license_file'.
  inv_bind Hrun. inv_lift Hstep. rename a into summary.
  inv_bind Hrun. rename a into description.
  assert (Hread : s = w /\ fs_lookup "README.md" (fs w) = Some (File description)).
  { unfold Path_read_text, get_fs, bind, ret, raise in Hstep.
    destruct (fs_lookup "README.md" (fs w)) as [[c|]|];
      inversion Hstep; split; reflexivity. }
  destruct Hread as [-> Hreadme].
  inv_bind Hrun. inv_lift Hstep0. rename a into repository.
  assert (license_file' = license_file) by congruence. subst license_file'.
  exists name, version, license_file, deps, run,
         homepage, license, summary, description, repository.
  repeat split; try assumption.
  unfold Path_write, get_fs, set_fs, emit, lift, bind in Hrun. cbn zeta.
  destruct (fs_lookup "recipe.yaml" (fs w)) as [[c|]|];
    simpl in Hrun; inversion Hrun; reflexivity.
Qed.

(** C5: a recipe written by [generate_recipe] carries the configured
    package name and version, its build script is the directory-creation
    step followed by the build line for the literal [zlib], which is not the
    build line of the configured name whenever that name is not [zlib], and
    its run requirements are [format_dependency] of every entry of the
    dependency mapping, in the mapping's order. *)
Theorem generate_recipe_spec (w w' : world) :
  generate_recipe E w = (Ok tt, w') ->
  exists (r : recipe) (deps : list (string * toml)),
    w' = mkWorld (fs_put "recipe.yaml" (File (yaml_dump E r)) (fs w))
                 (log w ++ [EvWrite "recipe.yaml" (yaml_dump E r)])
    /\ config2 E "package" "name" = Ok (package_name r)
    /\ config2 E "package" "version" = Ok (package_version r)
    /\ build_script r = ["mkdir -p ${PREFIX}/lib/mojo"; build_line "zlib"]
    /\ (forall n, package_name r = TStr n -> n <> "zlib" ->
        ~ In (build_line n) (build_script r))
    /\ dependencies = Ok deps
    /\ Forall2 (fun dv line => format_dependency_value (fst dv) (snd dv) = Ok line)
               deps (requirements_run r).
Proof.
  intros Hrun. apply generate_recipe_Ok in Hrun.
  destruct Hrun as (name & version & license_file & deps & run & homepage
                    & license & summary & description & repository
                    & Hname & Hversion & Hdeps & Hrun & _ & ->).
  cbn zeta.
  eexists (mkRecipe _ _ _ _ _ _ _ _ _ _ _ _), deps.
  split; [reflexivity|]. cbn [package_name package_version build_script requirements_run].
  repeat split; try assumption.
  - intros n _ Hn [Hin|[Hin|[]]].
    + discriminate Hin.
    + apply Hn. apply build_line_zlib. symmetry. exact Hin.
  - apply rmap_Ok_Forall2. exact Hrun.
Qed.

End RecipeFacts.

(** ** The filesystem *)

Section FilesystemFacts.

Lemma fs_lookup_delete_ne (p q : string) (f : filesystem) :
  q <> p -> fs_lookup q (fs_delete p f) = fs_lookup q f.
Proof.
  intros Hne. induction f as [|[k n] f IH]; simpl; [reflexivity|].
  destruct (String.eqb k p) eqn:Hkp; simpl.
  - apply String.eqb_eq in Hkp. subst k.
    destruct (String.eqb p q) eqn:Hpq; [|exact IH].
    apply String.eqb_eq in Hpq. congruence.
  - rewrite IH. reflexivity.
Qed.

Lemma fs_lookup_delete_eq (p : string) (f : filesystem) :
  fs_lookup p (fs_delete p f) = None.
Proof.
  induction f as [|[k n] f IH]; simpl; [reflexivity|].
  destruct (String.eqb k p) eqn:Hkp; simpl; [exact IH|].
  rewrite Hkp. exact IH.
Qed.

Lemma filter_keys_incl (P : string * node -> bool) (f : filesystem) (p : string) :
  In p (map fst (filter P f)) -> In p (map fst f).
Proof.
  intros Hin. apply in_map_iff in Hin. destruct Hin as ([k n] & Hk & Hin).
  apply filter_In in Hin. apply in_map_iff. exists (k, n). tauto.
Qed.

Lemma NoDup_filter_keys (P : string * node -> bool) (f : filesystem) :
  NoDup (map fst f) -> NoDup (map fst (filter P f)).
Proof.
  induction f as [|[k n] f IH]; simpl; intros Hnd; [constructor|].
  inversion Hnd as [|? ? Hk Hf]; subst.
  destruct (P (k, n)); simpl; [|exact (IH Hf)].
  constructor; [|exact (IH Hf)].
  intros Hin. apply Hk. exact (filter_keys_incl _ _ _ Hin).
Qed.

Lemma NoDup_glob_conda (dir : string) (f : filesystem) :
  NoDup (map fst f) -> NoDup (glob_conda dir f).
Proof. apply NoDup_filter_keys. Qed.

Lemma glob_conda_In (dir : string) (f : filesystem) (p : string) :
  In p (glob_conda dir f) <->
  In p (map fst f) /\
  exists name, p = dir ++ "/" ++ name /\ match_star_conda name = true.
Proof.
  unfold glob_conda. split.
  - intros Hin. split; [exact (filter_keys_incl _ _ _ Hin)|].
    apply in_map_iff in Hin. destruct Hin as ([k n] & Hk & Hin).
    simpl in Hk. subst k. apply filter_In in Hin. destruct Hin as [_ Hm].
    simpl in Hm.
    destruct (strip_prefix (dir ++ "/") p) as [name|] eqn:Hs; [|discriminate].
    exists name. split; [|exact Hm].
    rewrite (strip_prefix_Some _ _ _ Hs). apply app_assoc_str_cons.
  - intros [Hin (name & -> & Hm)].
    apply in_map_iff in Hin. destruct Hin as ([k n] & Hk & Hin).
    simpl in Hk. subst k. apply in_map_iff. exists (dir ++ "/" ++ name, n).
    split; [reflexivity|]. apply filter_In. split; [exact Hin|]. cbn [fst].
    rewrite <- app_assoc_str_cons, strip_prefix_app. exact Hm.
Qed.

End FilesystemFacts.

(** ** The publisher *)

Section PublishFacts.

Variable E : env.
Variable channel : string.

Local Abbreviation publish_body := (UtilSpec.publish_body E channel).
Local Abbreviation publish_header := (UtilSpec.publish_header E channel).
Local Abbreviation uploading := (UtilSpec.uploading channel).
Local Abbreviation file_events := (UtilSpec.file_events channel).
Local Abbreviation uploads_exit := (UtilSpec.uploads_exit E channel).

Lemma publish_unfold (w : world) :
  publish E channel w =
  for_each (glob_conda (CONDA_BUILD_PATH E) (fs w)) publish_body
           (mkWorld (fs w) (log w ++ [publish_header])).
Proof. reflexivity. Qed.

Lemma publish_body_exit (file : string) (f : filesystem) (lg : list event) :
  (exists rc out err,
      run_program E (upload_command channel file) f = (Completed rc out err, f)) ->
  (exists c, fs_lookup file f = Some (File c)) ->
  publish_body file (mkWorld f lg)
  = (Ok tt, mkWorld (fs_delete file f) (lg ++ file_events file)).
Proof.
  intros (rc & out & err & Hrun) (c & Hfile).
  unfold UtilSpec.publish_body, print, try_except_CalledProcessError_pass,
    subprocess_run_check, os_remove, emit, get_fs, set_fs, bind, ret, raise.
  cbn [fs log]. rewrite Hrun. cbn [fs log].
  destruct (Z.eqb rc 0); cbn [is_CalledProcessError fs log];
    rewrite Hfile; cbn [fs log]; unfold UtilSpec.file_events, UtilSpec.uploading;
    repeat rewrite <- app_assoc; reflexivity.
Qed.

Lemma publish_body_launch_failed (file : string) (f f' : filesystem)
  (lg : list event) (c m : string) :
  run_program E (upload_command channel file) f = (LaunchFailed c m, f') ->
  publish_body file (mkWorld f lg)
  = (Raise (OtherError c m),
     mkWorld f' (lg ++ [uploading file; EvRun (upload_command channel file)])).
Proof.
  intros Hrun.
  unfold UtilSpec.publish_body, print, try_except_CalledProcessError_pass,
    subprocess_run_check, os_remove, emit, get_fs, set_fs, bind, ret, raise.
  cbn [fs log]. rewrite Hrun. cbn [fs log is_CalledProcessError].
  unfold UtilSpec.uploading. repeat rewrite <- app_assoc. reflexivity.
Qed.

Lemma regular_files_delete (p : string) (l : list string) (f : filesystem) :
  ~ In p l -> regular_files l f -> regular_files l (fs_delete p f).
Proof.
  intros Hp Hl file Hin. destruct (Hl file Hin) as [c Hc].
  exists c. rewrite fs_lookup_delete_ne; [exact Hc|].
  intros ->. exact (Hp Hin).
Qed.

Lemma loop_exit (l : list string) (f : filesystem) (lg : list event) :
  NoDup l -> regular_files l f -> uploads_exit l ->
  for_each l publish_body (mkWorld f lg)
  = (Ok tt, mkWorld (delete_all l f) (lg ++ flat_map file_events l)).
Proof.
  revert f lg. induction l as [|file l IH]; intros f lg Hnd Hreg Hup.
  - simpl. rewrite app_nil_r. reflexivity.
  - inversion Hnd as [|? ? Hfile Hl]; subst.
    cbn [for_each]. unfold bind.
    rewrite publish_body_exit;
      [| apply Hup; now left | apply Hreg; now left].
    rewrite IH.
    + cbn [flat_map delete_all fold_left]. unfold delete_all.
      rewrite <- app_assoc. reflexivity.
    + exact Hl.
    + apply regular_files_delete; [exact Hfile|].
      intros q Hq. apply Hreg. now right.
    + intros q g Hq. apply Hup. now right.
Qed.

Lemma for_each_app {S A} (l1 l2 : list A) (body : A -> M S unit) (s : S) :
  for_each (l1 ++ l2) body s
  = bind (for_each l1 body) (fun _ => for_each l2 body) s.
Proof.
  revert s. induction l1 as [|a l1 IH]; intros s; simpl.
  - reflexivity.
  - unfold bind. destruct (body a s) as [[u|e] s1].
    + rewrite IH. reflexivity.
    + reflexivity.
Qed.

Lemma runs_app (l1 l2 : list event) : runs (l1 ++ l2) = (runs l1 ++ runs l2)%list.
Proof. apply flat_map_app. Qed.

Lemma removals_app (l1 l2 : list event) :
  removals (l1 ++ l2) = (removals l1 ++ removals l2)%list.
Proof. apply flat_map_app. Qed.

Lemma runs_file_events (l : list string) :
  runs (flat_map file_events l) = map (upload_command channel) l.
Proof. induction l as [|a l IH]; simpl; [reflexivity | rewrite IH; reflexivity]. Qed.

Lemma removals_file_events (l : list string) :
  removals (flat_map file_events l) = l.
Proof. induction l as [|a l IH]; simpl; [reflexivity | rewrite IH; reflexivity]. Qed.

Lemma delete_all_lookup (l : list string) (f : filesystem) (q : string) :
  ~ In q l -> fs_lookup q (delete_all l f) = fs_lookup q f.
Proof.
  revert f. induction l as [|p l IH]; intros f Hq; [reflexivity|].
  cbn [delete_all fold_left]. fold (delete_all l (fs_delete p f)).
  rewrite IH by (intros Hin; apply Hq; now right).
  apply fs_lookup_delete_ne. intros ->. apply Hq. now left.
Qed.

Lemma delete_all_gone (l : list string) (f : filesystem) (q : string) :
  In q l -> fs_lookup q (delete_all l f) = None.
Proof.
  revert f. induction l as [|p l IH]; intros f Hq; [destruct Hq|].
  cbn [delete_all fold_left]. fold (delete_all l (fs_delete p f)).
  destruct (in_dec string_dec q l) as [Hin|Hout].
  - apply IH. exact Hin.
  - rewrite delete_all_lookup by exact Hout.
    destruct Hq as [->|Hin]; [apply fs_lookup_delete_eq | contradiction].
Qed.

(** C3: when the matches of [*.conda] in the build directory are regular
    files and every upload ends with an exit code, zero or not, [publish]
    returns normally after one upload attempt and one deletion per file, in
    the order of the enumeration: a non-zero exit is swallowed, the file is
    deleted all the same and the loop goes on. *)
Theorem publish_uploads_and_deletes_every_file (w : world) :
  let files := glob_conda (CONDA_BUILD_PATH E) (fs w) in
  NoDup (map fst (fs w)) ->
  regular_files files (fs w) ->
  uploads_exit files ->
  exists w',
    publish E channel w = (Ok tt, w')
    /\ log w' = (log w ++ publish_header :: flat_map file_events files)%list
    /\ runs (log w') = (runs (log w) ++ map (upload_command channel) files)%list
    /\ removals (log w') = (removals (log w) ++ files)%list
    /\ List.length (runs (log w')) = (List.length (runs (log w)) + List.length files)%nat
    /\ List.length (removals (log w')) = (List.length (removals (log w)) + List.length files)%nat
    /\ fs w' = delete_all files (fs w)
    /\ (forall file, In file files -> fs_exists file (fs w') = false).
Proof.
  intros files Hnd Hreg Hup.
  exists (mkWorld (delete_all files (fs w))
                  (log w ++ publish_header :: flat_map file_events files)).
  assert (Hruns : runs (log w ++ publish_header :: flat_map file_events files)
                  = (runs (log w) ++ map (upload_command channel) files)%list).
  { rewrite runs_app. change (publish_header :: ?l) with ([publish_header] ++ l)%list.
    rewrite runs_app, runs_file_events. reflexivity. }
  assert (Hrem : removals (log w ++ publish_header :: flat_map file_events files)
                 = (removals (log w) ++ files)%list).
  { rewrite removals_app. change (publish_header :: ?l) with ([publish_header] ++ l)%list.
    rewrite removals_app, removals_file_events. reflexivity. }
  cbn [fs log]. repeat split.
  - rewrite publish_unfold, loop_exit.
    + rewrite <- app_assoc. reflexivity.
    + apply NoDup_glob_conda. exact Hnd.
    + exact Hreg.
    + exact Hup.
  - exact Hruns.
  - exact Hrem.
  - rewrite Hruns, length_app, length_map. reflexivity.
  - rewrite Hrem, length_app. reflexivity.
  - intros file Hin. unfold fs_exists.
    rewrite delete_all_gone by exact Hin. reflexivity.
Qed.

(** Only [CalledProcessError] is swallowed by the handler. *)
Lemma try_except_swallows_only_CalledProcessError {S} (body : M S unit) (s s' : S) (e : exn) :
  body s = (Raise e, s') ->
  try_except_CalledProcessError_pass body s
  = if is_CalledProcessError e then (Ok tt, s') else (Raise e, s').
Proof. unfold try_except_CalledProcessError_pass. intros ->. reflexivity. Qed.

Lemma upload_command_inj (a b : string) :
  upload_command channel a = upload_command channel b -> a = b.
Proof. unfold upload_command. intros Heq. inversion Heq. reflexivity. Qed.

Lemma NoDup_app_disjoint {A} (l1 l2 : list A) (q : A) :
  NoDup (l1 ++ l2) -> In q l2 -> ~ In q l1.
Proof.
  induction l1 as [|x l1 IH]; simpl; intros Hnd Hq Hin; [exact Hin|].
  inversion Hnd as [|? ? Hx Hl]; subst.
  destruct Hin as [->|Hin].
  - apply Hx. apply in_or_app. now right.
  - exact (IH Hl Hq Hin).
Qed.

(** C10: when the upload call itself raises for some file, with an exception
    that is not [CalledProcessError] (the executable is missing, say), the
    exception leaves [publish]: the files before it were uploaded and
    deleted, the upload of this file was attempted, and neither this file
    nor any later one is deleted, and no later one is uploaded. *)
Theorem publish_stops_at_launch_failure
  (w : world) (pre post : list string) (file c m : string) (f' : filesystem) :
  NoDup (map fst (fs w)) ->
  glob_conda (CONDA_BUILD_PATH E) (fs w) = (pre ++ file :: post)%list ->
  regular_files pre (fs w) ->
  uploads_exit pre ->
  run_program E (upload_command channel file) (delete_all pre (fs w))
    = (LaunchFailed c m, f') ->
  exists w',
    publish E channel w = (Raise (OtherError c m), w')
    /\ is_CalledProcessError (OtherError c m) = false
    /\ fs w' = f'
    /\ log w' = (log w ++ publish_header :: flat_map file_events pre
                 ++ [uploading file; EvRun (upload_command channel file)])%list
    /\ runs (log w') = (runs (log w) ++ map (upload_command channel) pre
                        ++ [upload_command channel file])%list
    /\ removals (log w') = (removals (log w) ++ pre)%list
    /\ (forall q, In q (file :: post) ->
        ~ In q pre
        /\ fs_lookup q (delete_all pre (fs w)) = fs_lookup q (fs w))
    /\ (forall q, In q post ->
        ~ In (upload_command channel q)
             (map (upload_command channel) pre ++ [upload_command channel file])%list).
Proof.
  intros Hnd Hglob Hreg Hup Hrun.
  assert (Hnd' : NoDup (pre ++ file :: post)).
  { rewrite <- Hglob. apply NoDup_glob_conda. exact Hnd. }
  assert (Hpre : NoDup pre).
  { apply NoDup_app_remove_r in Hnd'. exact Hnd'. }
  assert (Hout : forall q, In q (file :: post) -> ~ In q pre).
  { intros q Hq. exact (NoDup_app_disjoint _ _ _ Hnd' Hq). }
  exists (mkWorld f' (log w ++ publish_header :: flat_map file_events pre
                      ++ [uploading file; EvRun (upload_command channel file)])).
  cbn [fs log]. repeat split.
  - rewrite publish_unfold, Hglob, for_each_app. unfold bind at 1.
    rewrite loop_exit by assumption.
    cbn [for_each]. unfold bind.
    rewrite (publish_body_launch_failed _ _ _ _ _ _ Hrun).
    repeat rewrite <- app_assoc. reflexivity.
  - rewrite runs_app. change (publish_header :: ?l) with ([publish_header] ++ l)%list.
    rewrite !runs_app, runs_file_events. reflexivity.
  - rewrite removals_app. change (publish_header :: ?l) with ([publish_header] ++ l)%list.
    rewrite !removals_app, removals_file_events. simpl. rewrite app_nil_r. reflexivity.
  - exact (Hout q H).
  - apply delete_all_lookup. exact (Hout q H).
  - intros q Hq Hin. apply in_app_or in Hin. destruct Hin as [Hin|[Hin|[]]].
    + apply in_map_iff in Hin. destruct Hin as (x & Hx & Hin).
      apply upload_command_inj in Hx. subst x.
      apply (Hout q); [now right | exact Hin].
    + apply upload_command_inj in Hin. subst q.
      apply NoDup_remove_2 in Hnd'. apply Hnd'. apply in_or_app. now right.
Qed.

End PublishFacts.

(** ** The build orchestrator *)

Section BuildFacts.

Variable E : env.

Local Abbreviation ensure_recipe := (UtilSpec.ensure_recipe E).

Lemma build_conda_package_unfold (w : world) :
  build_conda_package E w
  = (ensure_recipe ;;;
     subprocess_run_check E (build_command E) ;;;
     os_remove RECIPE_PATH)%monad w.
Proof.
  unfold build_conda_package, UtilSpec.ensure_recipe, Path_exists, get_fs, bind, ret.
  destruct (fs_exists RECIPE_PATH (fs w)); reflexivity.
Qed.

Lemma ensure_recipe_present (w : world) :
  fs_exists RECIPE_PATH (fs w) = true -> ensure_recipe w = (Ok tt, w).
Proof.
  intros Hex. unfold UtilSpec.ensure_recipe, Path_exists, get_fs, bind, ret.
  rewrite Hex. reflexivity.
Qed.

Lemma ensure_recipe_absent (w : world) :
  fs_exists RECIPE_PATH (fs w) = false -> ensure_recipe w = generate_recipe E w.
Proof.
  intros Hex. unfold UtilSpec.ensure_recipe, Path_exists, get_fs, bind, ret.
  rewrite Hex. reflexivity.
Qed.

Lemma subprocess_run_check_Ok (argv : list string) (w w' : world) :
  subprocess_run_check E argv w = (Ok tt, w') ->
  exists out err,
    run_program E argv (fs w) = (Completed 0 out err, fs w')
    /\ log w' = (log w ++ [EvRun argv])%list.
Proof.
  unfold subprocess_run_check, emit, get_fs, set_fs, bind, ret, raise.
  cbn [fs log].
  destruct (run_program E argv (fs w)) as [[rc out err|c m] f'] eqn:Hrun;
    cbn [fs log]; [|discriminate].
  destruct (Z.eqb rc 0) eqn:Hrc; [|discriminate].
  apply Z.eqb_eq in Hrc. subst rc.
  intros Heq. inversion Heq. exists out, err. split; reflexivity.
Qed.

Lemma subprocess_run_check_nonzero (argv : list string) (w : world)
  (rc : Z) (out err : string) (f' : filesystem) :
  run_program E argv (fs w) = (Completed rc out err, f') -> rc <> 0%Z ->
  subprocess_run_check E argv w
  = (Raise (CalledProcessError argv rc), mkWorld f' (log w ++ [EvRun argv])).
Proof.
  intros Hrun Hrc.
  unfold subprocess_run_check, emit, get_fs, set_fs, bind, ret, raise.
  cbn [fs log]. rewrite Hrun. cbn [fs log].
  destruct (Z.eqb rc 0) eqn:Heq; [|reflexivity].
  apply Z.eqb_eq in Heq. contradiction.
Qed.

Lemma os_remove_Ok (p : string) (w w' : world) :
  os_remove p w = (Ok tt, w') ->
  (exists c, fs_lookup p (fs w) = Some (File c))
  /\ w' = mkWorld (fs_delete p (fs w)) (log w ++ [EvRemove p]).
Proof.
  unfold os_remove, emit, get_fs, set_fs, bind, ret, raise.
  destruct (fs_lookup p (fs w)) as [[c|]|]; cbn [fs log];
    intros Heq; inversion Heq.
  split; [exists c|]; reflexivity.
Qed.

(** A successful run of the build step and the cleanup, from the state the
    recipe step left. *)
Lemma build_and_cleanup (w1 w' : world) :
  (subprocess_run_check E (build_command E) ;;; os_remove RECIPE_PATH)%monad w1
    = (Ok tt, w') ->
  exists out err f1,
    run_program E (build_command E) (fs w1) = (Completed 0 out err, f1)
    /\ fs w' = fs_delete RECIPE_PATH f1
    /\ log w' = (log w1 ++ [EvRun (build_command E); EvRemove RECIPE_PATH])%list
    /\ fs_exists RECIPE_PATH (fs w') = false.
Proof.
  intros Hrun. inv_bind Hrun. destruct a.
  apply subprocess_run_check_Ok in Hstep. destruct Hstep as (out & err & Hprog & Hlog).
  apply os_remove_Ok in Hrun. destruct Hrun as [_ ->].
  exists out, err, (fs s). cbn [fs log]. repeat split.
  - exact Hprog.
  - rewrite Hlog, <- app_assoc. reflexivity.
  - unfold fs_exists. rewrite fs_lookup_delete_eq. reflexivity.
Qed.

(** C4: a successful [build_conda_package] that found no recipe file wrote
    one recipe, ran the build once on it and then removed the file; one that
    found a recipe file wrote nothing, ran the build on the filesystem as it
    was and then removed the file; and when the build tool exits non-zero
    the command raises [CalledProcessError] after that single run, having
    removed nothing. *)
Theorem build_conda_package_spec (w : world) :
  (forall w',
      fs_exists RECIPE_PATH (fs w) = false ->
      build_conda_package E w = (Ok tt, w') ->
      exists (r : recipe) out err f1,
        run_program E (build_command E)
          (fs_put RECIPE_PATH (File (yaml_dump E r)) (fs w))
          = (Completed 0 out err, f1)
        /\ log w' = (log w ++ [EvWrite RECIPE_PATH (yaml_dump E r);
                               EvRun (build_command E);
                               EvRemove RECIPE_PATH])%list
        /\ fs w' = fs_delete RECIPE_PATH f1
        /\ fs_exists RECIPE_PATH (fs w') = false)
  /\ (forall w',
      fs_exists RECIPE_PATH (fs w) = true ->
      build_conda_package E w = (Ok tt, w') ->
      exists out err f1,
        run_program E (build_command E) (fs w) = (Completed 0 out err, f1)
        /\ log w' = (log w ++ [EvRun (build_command E);
                               EvRemove RECIPE_PATH])%list
        /\ fs w' = fs_delete RECIPE_PATH f1
        /\ fs_exists RECIPE_PATH (fs w') = false)
  /\ (forall w1 rc out err f1,
      ensure_recipe w = (Ok tt, w1) ->
      run_program E (build_command E) (fs w1) = (Completed rc out err, f1) ->
      rc <> 0%Z ->
      build_conda_package E w
        = (Raise (CalledProcessError (build_command E) rc),
           mkWorld f1 (log w1 ++ [EvRun (build_command E)]))
      /\ runs (log w1 ++ [EvRun (build_command E)])
         = (runs (log w) ++ [build_command E])%list
      /\ removals (log w1 ++ [EvRun (build_command E)]) = removals (log w)).
Proof.
  split; [|split].
  - intros w' Hex Hrun. rewrite build_conda_package_unfold in Hrun.
    inv_bind Hrun. rewrite (ensure_recipe_absent _ Hex) in Hstep.
    destruct a. apply generate_recipe_Ok in Hstep.
    destruct Hstep as (name & version & license_file & deps & run & homepage
                       & license & summary & description & repository
                       & _ & _ & _ & _ & _ & ->).
    cbn zeta in Hrun.
    match type of Hrun with
    | context [yaml_dump E ?r0] => set (r := r0) in *
    end.
    apply build_and_cleanup in Hrun. cbn [fs log] in Hrun.
    destruct Hrun as (out & err & f1 & Hprog & Hfs & Hlog & Hgone).
    exists r, out, err, f1. repeat split; try assumption.
    rewrite Hlog, <- app_assoc. reflexivity.
  - intros w' Hex Hrun. rewrite build_conda_package_unfold in Hrun.
    inv_bind Hrun. rewrite (ensure_recipe_present _ Hex) in Hstep.
    inversion Hstep; subst.
    apply build_and_cleanup in Hrun.
    destruct Hrun as (out & err & f1 & Hprog & Hfs & Hlog & Hgone).
    exists out, err, f1. repeat split; assumption.
  - intros w1 rc out err f1 Hens Hprog Hrc.
    split.
    + rewrite build_conda_package_unfold.
      rewrite (bind_Ok_eq _ _ _ _ _ Hens).
      apply bind_Raise_eq.
      apply (subprocess_run_check_nonzero _ _ _ out err); assumption.
    + assert (Hlog : log w1 = log w \/ exists c, log w1 = (log w ++ [EvWrite RECIPE_PATH c])%list).
      { destruct (fs_exists RECIPE_PATH (fs w)) eqn:Hex.
        - rewrite (ensure_recipe_present _ Hex) in Hens.
          inversion Hens; subst. now left.
        - rewrite (ensure_recipe_absent _ Hex) in Hens.
          apply generate_recipe_Ok in Hens.
          destruct Hens as (name & version & license_file & deps & run & homepage
                            & license & summary & description & repository
                            & _ & _ & _ & _ & _ & ->).
          right. eexists. reflexivity. }
      destruct Hlog as [->|[c ->]].
      * rewrite runs_app, removals_app. simpl. rewrite app_nil_r. split; reflexivity.
      * rewrite !runs_app, !removals_app. simpl. rewrite !app_nil_r. split; reflexivity.
Qed.

End BuildFacts.

(** ** The staging directory *)

Section StagingFacts.

Variable E : env.

Local Abbreviation artifact_path := (UtilSpec.artifact_path E).
Local Abbreviation packager_writes_output := (UtilSpec.packager_writes_output E).
Local Abbreviation populate := (UtilSpec.populate E).

Lemma under_refl (d : string) : under d d = true.
Proof. unfold under. rewrite String.eqb_refl. reflexivity. Qed.

Lemma under_artifact (package : string) :
  under (TEMP_DIR E) (artifact_path package) = true.
Proof.
  unfold under, UtilSpec.artifact_path. apply orb_true_iff. right.
  rewrite <- app_assoc_str_cons. apply startswith_app.
Qed.

Lemma artifact_not_staging (package : string) :
  artifact_path package <> TEMP_DIR E.
Proof.
  unfold UtilSpec.artifact_path. intros Heq.
  apply (f_equal String.length) in Heq.
  rewrite !str_length_app in Heq. simpl in Heq. lia.
Qed.

Lemma fs_lookup_outside (d p : string) (f : filesystem) :
  fs_lookup p (outside d f) = if under d p then None else fs_lookup p f.
Proof.
  induction f as [|[k n] f IH]; simpl.
  - destruct (under d p); reflexivity.
  - destruct (under d k) eqn:Hk; simpl.
    + destruct (String.eqb k p) eqn:Hkp; [|exact IH].
      apply String.eqb_eq in Hkp. subst k. rewrite IH, Hk. reflexivity.
    + destruct (String.eqb k p) eqn:Hkp; [|exact IH].
      apply String.eqb_eq in Hkp. subst k. rewrite Hk. reflexivity.
Qed.

Lemma outside_idem (d : string) (f : filesystem) :
  outside d (outside d f) = outside d f.
Proof.
  unfold outside. induction f as [|[k n] f IH]; simpl; [reflexivity|].
  destruct (under d k) eqn:Hk; simpl; [exact IH|].
  rewrite Hk. simpl. rewrite IH. reflexivity.
Qed.

Lemma outside_app (d : string) (f g : filesystem) :
  outside d (f ++ g)%list = (outside d f ++ outside d g)%list.
Proof. apply filter_app. Qed.

Lemma inside_app (d : string) (f g : filesystem) :
  inside d (f ++ g)%list = (inside d f ++ inside d g)%list.
Proof. apply filter_app. Qed.

Lemma inside_outside (d : string) (f : filesystem) : inside d (outside d f) = [].
Proof.
  unfold inside, outside. induction f as [|[k n] f IH]; simpl; [reflexivity|].
  destruct (under d k) eqn:Hk; simpl; [exact IH|].
  rewrite Hk. exact IH.
Qed.

Lemma outside_all (d : string) (f : filesystem) :
  (forall e, In e f -> under d (fst e) = false) -> outside d f = f.
Proof.
  unfold outside. induction f as [|e f IH]; simpl; intros Hall; [reflexivity|].
  rewrite (Hall e) by now left. simpl.
  rewrite IH; [reflexivity|]. intros x Hx. apply Hall. now right.
Qed.

Lemma fs_lookup_app (p : string) (f g : filesystem) :
  fs_lookup p (f ++ g)%list
  = match fs_lookup p f with Some n => Some n | None => fs_lookup p g end.
Proof.
  induction f as [|[k n] f IH]; simpl; [reflexivity|].
  destruct (String.eqb k p); [reflexivity | exact IH].
Qed.

Lemma fs_put_absent (p : string) (n : node) (f : filesystem) :
  fs_lookup p f = None -> fs_put p n f = (f ++ [(p, n)])%list.
Proof.
  induction f as [|[k m] f IH]; simpl; [reflexivity|].
  destruct (String.eqb k p); [discriminate|].
  intros Hf. rewrite (IH Hf). reflexivity.
Qed.

Lemma prepare_unfold (w : world) :
  prepare_temp_directory E w
  = bind (remove_temp_directory E) (fun _ => populate) w.
Proof. reflexivity. Qed.

(** A successful removal leaves the entries outside the staging directory,
    whether the directory was there or not. *)
Lemma remove_temp_directory_Ok (w w1 : world) :
  staging_consistent (TEMP_DIR E) (fs w) ->
  remove_temp_directory E w = (Ok tt, w1) ->
  fs w1 = outside (TEMP_DIR E) (fs w)
  /\ exists evs, log w1 = (log w ++ evs)%list
                 /\ runs evs = [] /\ removals evs = [].
Proof.
  intros Hcons.
  unfold remove_temp_directory, Path_exists, shutil_rmtree, print, emit,
    get_fs, set_fs, bind, ret, raise. cbn [fs log].
  unfold fs_exists at 1.
  destruct (fs_lookup (TEMP_DIR E) (fs w)) as [[c|]|] eqn:Hl; cbn [fs log].
  - rewrite Hl. discriminate.
  - rewrite Hl. cbn [fs log]. intros Heq. inversion Heq. cbn [fs log].
    split; [reflexivity|].
    exists [EvPrint "Removing temp directory."; EvRmtree (TEMP_DIR E)].
    rewrite <- app_assoc. repeat split.
  - intros Heq. inversion Heq. subst w1. split.
    + symmetry. apply outside_all. apply Hcons.
      unfold fs_exists. rewrite Hl. reflexivity.
    + exists []. rewrite app_nil_r. repeat split.
Qed.

Lemma remove_temp_directory_present (f : filesystem) (lg : list event) :
  fs_lookup (TEMP_DIR E) f = Some Dir ->
  remove_temp_directory E (mkWorld f lg)
  = (Ok tt, mkWorld (outside (TEMP_DIR E) f)
                    (lg ++ [EvPrint "Removing temp directory.";
                            EvRmtree (TEMP_DIR E)])).
Proof.
  intros Hl.
  unfold remove_temp_directory, Path_exists, shutil_rmtree, print, emit,
    get_fs, set_fs, bind, ret, raise, fs_exists. cbn [fs log].
  rewrite Hl. cbn [fs log]. rewrite Hl. cbn [fs log].
  rewrite <- app_assoc. reflexivity.
Qed.

(** [populate] succeeds exactly when the directory can be made and the
    packager exits with status 0 on the filesystem with the fresh
    directory. *)
Lemma populate_Ok (w w' : world) :
  populate w = (Ok tt, w') <->
  fs_exists (TEMP_DIR E) (fs w) = false
  /\ check_parent (TEMP_DIR E) (fs w) = Ok tt
  /\ exists package out err,
      config2 E "package" "name" = Ok package
      /\ run_program E (package_command E (format_value E package))
           (fs w ++ [(TEMP_DIR E, Dir)])%list
         = (Completed 0 out err, fs w')
      /\ log w' = (log w ++ [EvMkdir (TEMP_DIR E);
                             EvRun (package_command E (format_value E package))])%list.
Proof.
  unfold UtilSpec.populate, Path_mkdir, subprocess_run_check, lift, emit,
    get_fs, set_fs, bind, ret, raise. cbn [fs log].
  destruct (fs_exists (TEMP_DIR E) (fs w)); cbn [fs log].
  { split; [discriminate | intros [Hf _]; discriminate]. }
  destruct (check_parent (TEMP_DIR E) (fs w)) as [[]|e]; cbn [fs log].
  2:{ split; [discriminate | intros (_ & Hf & _); discriminate]. }
  destruct (config2 E "package" "name") as [package|e]; cbn [fs log].
  2:{ split; [discriminate | intros (_ & _ & p & o & e' & Hf & _); discriminate]. }
  destruct (run_program E (package_command E (format_value E package))
              (fs w ++ [(TEMP_DIR E, Dir)])%list) as [[rc out err|c m] f'] eqn:Hrun;
    cbn [fs log].
  2:{ split; [discriminate|].
      intros (_ & _ & p & o & e' & Hp & Hr & _).
      inversion Hp; subst p. rewrite Hrun in Hr. discriminate. }
  destruct (Z.eqb rc 0) eqn:Hrc.
  - apply Z.eqb_eq in Hrc. subst rc. split.
    + intros Heq. inversion Heq. cbn [fs log]. repeat split.
      exists package, out, err. rewrite <- app_assoc. repeat split.
      exact Hrun.
    + intros (_ & _ & p & o & e' & Hp & Hr & Hlog).
      inversion Hp; subst p. rewrite Hrun in Hr. inversion Hr.
      destruct w' as [f'' lg'']. cbn [fs log] in *. subst.
      rewrite <- app_assoc. reflexivity.
  - split; [discriminate|].
    intros (_ & _ & p & o & e' & Hp & Hr & _).
    inversion Hp; subst p. rewrite Hrun in Hr. inversion Hr; subst.
    discriminate.
Qed.

(** C9: with a packager that writes its output file, a successful
    [prepare_temp_directory] runs the packager on a filesystem where the
    staging directory is there and empty, and leaves the directory with
    exactly one entry, the new artifact; what was in it before is gone and
    what lies outside it is as before.  Calling it again succeeds and leaves
    the same filesystem. *)
Theorem prepare_temp_directory_spec (w w' : world) :
  packager_writes_output ->
  staging_consistent (TEMP_DIR E) (fs w) ->
  prepare_temp_directory E w = (Ok tt, w') ->
  exists package c out err,
    let clean := (outside (TEMP_DIR E) (fs w) ++ [(TEMP_DIR E, Dir)])%list in
    inside (TEMP_DIR E) clean = [(TEMP_DIR E, Dir)]
    /\ run_program E (package_command E package) clean
       = (Completed 0 out err, fs w')
    /\ fs w' = (clean ++ [(artifact_path package, File c)])%list
    /\ fs_lookup (TEMP_DIR E) (fs w') = Some Dir
    /\ inside (TEMP_DIR E) (fs w')
       = [(TEMP_DIR E, Dir); (artifact_path package, File c)]
    /\ outside (TEMP_DIR E) (fs w') = outside (TEMP_DIR E) (fs w)
    /\ exists w'',
        prepare_temp_directory E w' = (Ok tt, w'') /\ fs w'' = fs w'.
Proof.
  intros Hpack Hcons Hrun.
  rewrite prepare_unfold in Hrun. inv_bind Hrun. destruct a.
  apply (remove_temp_directory_Ok _ _ Hcons) in Hstep.
  destruct Hstep as [Hfs _].
  apply populate_Ok in Hrun.
  destruct Hrun as (Hfresh & Hparent & pkg & out & err & Hcfg & Hprog & Hlog).
  rewrite Hfs in Hfresh, Hparent, Hprog.
  destruct (Hpack _ _ _ _ _ Hprog) as [c Hc].
  set (d := TEMP_DIR E) in *.
  set (art := artifact_path (format_value E pkg)) in *.
  assert (Hart : under d art = true) by apply under_artifact.
  assert (Hne : String.eqb d art = false).
  { apply String.eqb_neq. intros Heq. symmetry in Heq.
    exact (artifact_not_staging _ Heq). }
  assert (Habsent : fs_lookup art (outside d (fs w) ++ [(d, Dir)])%list = None).
  { rewrite fs_lookup_app, fs_lookup_outside, Hart.
    cbn [fs_lookup]. rewrite Hne. reflexivity. }
  rewrite (fs_put_absent _ _ _ Habsent) in Hc.
  assert (Hin1 : inside d (outside d (fs w) ++ [(d, Dir)])%list = [(d, Dir)]).
  { rewrite inside_app, inside_outside. unfold inside. cbn [filter fst].
    rewrite under_refl. reflexivity. }
  assert (Hin2 : inside d (fs w') = [(d, Dir); (art, File c)]).
  { rewrite Hc, inside_app, Hin1. unfold inside. cbn [filter fst].
    rewrite Hart. reflexivity. }
  assert (Hout : outside d (fs w') = outside d (fs w)).
  { rewrite Hc, !outside_app, outside_idem. unfold outside. cbn [filter fst].
    rewrite under_refl, Hart. cbn [negb]. rewrite !app_nil_r. reflexivity. }
  assert (Hdir : fs_lookup d (fs w') = Some Dir).
  { rewrite Hc, !fs_lookup_app, fs_lookup_outside, under_refl.
    cbn [fs_lookup]. rewrite String.eqb_refl. reflexivity. }
  exists (format_value E pkg), c, out, err. cbn zeta.
  repeat split; try assumption.
  exists (mkWorld (fs w')
            (log w' ++ [EvPrint "Removing temp directory."; EvRmtree d]
                    ++ [EvMkdir d; EvRun (package_command E (format_value E pkg))])).
  split; [|reflexivity].
  destruct w' as [f' lg']. cbn [fs log] in *.
  rewrite prepare_unfold.
  rewrite (bind_Ok_eq _ _ _ _ _ (remove_temp_directory_present f' lg' Hdir)).
  apply populate_Ok. cbn [fs log]. fold d. rewrite Hout.
  repeat split; try assumption.
  exists pkg, out, err. repeat split; try assumption.
  rewrite <- app_assoc. reflexivity.
Qed.

End StagingFacts.

(** ** Sorting strings *)

Import RunnerSpec.

Section SortingFacts.

Lemma ascii_compare_refl (a : ascii) : Ascii.compare a a = Eq.
Proof. unfold Ascii.compare. apply N.compare_refl. Qed.

Lemma str_compare_refl (a : string) : String.compare a a = Eq.
Proof.
  induction a as [|c a IH]; simpl; [reflexivity|].
  rewrite ascii_compare_refl. exact IH.
Qed.

Lemma str_compare_trans (a b c : string) :
  String.compare a b <> Gt -> String.compare b c <> Gt ->
  String.compare a c <> Gt.
Proof.
  revert b c. induction a as [|x a IH]; intros [|y b] [|z c]; simpl;
    try congruence.
  unfold Ascii.compare.
  destruct (N.compare_spec (N_of_ascii x) (N_of_ascii y)) as [Hxy|Hxy|Hxy];
    destruct (N.compare_spec (N_of_ascii y) (N_of_ascii z)) as [Hyz|Hyz|Hyz];
    destruct (N.compare_spec (N_of_ascii x) (N_of_ascii z)) as [Hxz|Hxz|Hxz];
    try congruence; try lia.
  apply IH.
Qed.

Lemma str_le_trans (a b c : string) : str_le a b -> str_le b c -> str_le a c.
Proof.
  unfold str_le, String.leb. intros Hab Hbc.
  pose proof (str_compare_trans a b c) as Ht.
  destruct (String.compare a b); destruct (String.compare b c);
    destruct (String.compare a c); try reflexivity; try discriminate;
    exfalso; apply Ht; congruence.
Qed.

Lemma insert_sorted_perm (x : string) (l : list string) :
  Permutation (x :: l) (insert_sorted x l).
Proof.
  induction l as [|y l IH]; simpl; [apply Permutation_refl|].
  destruct (String.leb x y); [apply Permutation_refl|].
  eapply perm_trans; [apply perm_swap|]. apply perm_skip. exact IH.
Qed.

Lemma sorted_perm (l : list string) : Permutation l (sorted l).
Proof.
  induction l as [|x l IH]; simpl; [constructor|].
  eapply perm_trans; [apply perm_skip; exact IH|]. apply insert_sorted_perm.
Qed.

Lemma insert_sorted_Sorted (x : string) (l : list string) :
  Sorted str_le l -> Sorted str_le (insert_sorted x l).
Proof.
  induction 1 as [|y l Hl IH Hy]; simpl.
  - repeat constructor.
  - destruct (String.leb x y) eqn:Hxy.
    + constructor; [constructor; assumption | constructor; exact Hxy].
    + assert (Hyx : str_le y x).
      { destruct (String.leb_total x y) as [H|H]; [congruence | exact H]. }
      constructor; [exact IH|].
      destruct l as [|z l]; simpl.
      * constructor. exact Hyx.
      * destruct (String.leb x z); constructor; [exact Hyx|].
        inversion Hy. assumption.
Qed.

Lemma sorted_Sorted (l : list string) : Sorted str_le (sorted l).
Proof.
  induction l as [|x l IH]; simpl; [constructor|].
  apply insert_sorted_Sorted. exact IH.
Qed.

Lemma sorted_StronglySorted (l : list string) : StronglySorted str_le (sorted l).
Proof.
  apply Sorted_StronglySorted; [|apply sorted_Sorted].
  intros a b c. apply str_le_trans.
Qed.

(** Two ascending lists with the same elements are the same list. *)
Lemma StronglySorted_perm_eq (l l' : list string) :
  StronglySorted str_le l -> StronglySorted str_le l' ->
  Permutation l l' -> l = l'.
Proof.
  revert l'. induction l as [|x l IH]; intros l' Hl Hl' Hp.
  - apply Permutation_nil in Hp. subst. reflexivity.
  - destruct l' as [|y l'].
    + apply Permutation_sym, Permutation_nil in Hp. discriminate.
    + inversion Hl as [|? ? Hsl Hx]; subst.
      inversion Hl' as [|? ? Hsl' Hy]; subst.
      assert (Hxy : x = y).
      { assert (Hin : In x (y :: l')) by
          (eapply Permutation_in; [exact Hp | now left]).
        assert (Hin' : In y (x :: l)) by
          (eapply Permutation_in; [apply Permutation_sym; exact Hp | now left]).
        destruct Hin as [Heq|Hin]; [congruence|].
        destruct Hin' as [Heq|Hin']; [congruence|].
        rewrite Forall_forall in Hx, Hy.
        apply String.leb_antisym; [apply Hx | apply Hy]; assumption. }
      subst y. f_equal. apply IH; try assumption.
      eapply Permutation_cons_inv. exact Hp.
Qed.

Lemma sorted_perm_eq (l l' : list string) :
  Permutation l l' -> sorted l = sorted l'.
Proof.
  intros Hp. apply StronglySorted_perm_eq; try apply sorted_StronglySorted.
  eapply perm_trans; [apply Permutation_sym, sorted_perm|].
  eapply perm_trans; [exact Hp | apply sorted_perm].
Qed.

End SortingFacts.

(** ** Test discovery *)

Import TestRunner.

Section DiscoveryFacts.

(** Induction on a tree with the hypothesis for every sub-directory. *)
Lemma dirtree_subdirs_ind (P : dirtree -> Prop)
  (step : forall files subdirs,
      Forall (fun d => P (snd d)) subdirs -> P (DirNode files subdirs))
  (t : dirtree) : P t.
Proof.
  revert t. fix IH 1. intros [files subdirs]. apply step.
  induction subdirs as [|d l IHl]; constructor; [apply IH | exact IHl].
Qed.

Lemma candidates_node (top : string) files subdirs :
  candidates top (DirNode files subdirs)
  = (map (os_path_join top) (filter (fun file => endswith ".mojo" file) files)
     ++ flat_map (fun d => candidates (os_path_join top (fst d)) (snd d)) subdirs)%list.
Proof.
  unfold candidates. cbn [os_walk_tree flat_map]. f_equal.
  induction subdirs as [|d l IH]; cbn [flat_map]; [reflexivity|].
  rewrite flat_map_app, IH. reflexivity.
Qed.

Lemma candidates_spec (t : dirtree) :
  forall top p, In p (candidates top t) <-> mojo_file_path top t p.
Proof.
  induction t as [files subdirs IH] using dirtree_subdirs_ind.
  intros top p. rewrite candidates_node, in_app_iff, in_flat_map. split.
  - intros [Hin|(d & Hd & Hin)].
    + apply in_map_iff in Hin. destruct Hin as (name & <- & Hname).
      apply filter_In in Hname. destruct Hname as [Hname Hmojo].
      exists top, files, name. repeat split; try assumption. constructor.
    + rewrite Forall_forall in IH. apply (IH d Hd) in Hin.
      destruct Hin as (dir & fl & name & Hdir & Hname & Hmojo & ->).
      exists dir, fl, name. repeat split; try assumption.
      destruct d as [dname sub]. eapply directory_below; eassumption.
  - intros (dir & fl & name & Hdir & Hname & Hmojo & ->).
    inversion Hdir as [|? ? ? dname sub ? ? Hsub Hbelow]; subst.
    + left. apply in_map. apply filter_In. split; assumption.
    + right. exists (dname, sub). split; [exact Hsub|].
      rewrite Forall_forall in IH. apply (IH (dname, sub) Hsub).
      exists dir, fl, name. repeat split; assumption.
Qed.

Lemma candidates_reordered (t t' : dirtree) :
  reordered t t' ->
  forall top, Permutation (candidates top t) (candidates top t').
Proof.
  induction 1 as [files files' subdirs subdirs' Hf Hs
                 | files pre name sub sub' post _ IH
                 | t1 t2 t3 _ IH1 _ IH2]; intros top.
  - rewrite !candidates_node. apply Permutation_app.
    + apply Permutation_map. clear Hs.
      induction Hf as [|x l l' _ IHp|x y l|l1 l2 l3 _ IH1 _ IH2]; simpl.
      * constructor.
      * destruct (endswith ".mojo" x); [apply perm_skip|]; exact IHp.
      * destruct (endswith ".mojo" x); destruct (endswith ".mojo" y);
          try apply Permutation_refl. apply perm_swap.
      * eapply perm_trans; eassumption.
    + apply Permutation_flat_map. exact Hs.
  - rewrite !candidates_node. apply Permutation_app_head.
    rewrite !flat_map_app. apply Permutation_app_head.
    cbn [flat_map fst snd]. apply Permutation_app_tail. apply IH.
  - eapply perm_trans; [apply IH1 | apply IH2].
Qed.

(** C6: the result of [find_mojo_test_files] is in ascending order, holds
    exactly the paths of the files of the tree whose names end in [.mojo],
    each as often as it is found, and is the same list whatever the order in
    which the directories enumerate their entries; a missing directory gives
    the empty list. *)
Theorem find_mojo_test_files_spec (tests_dir : string) (t : dirtree) :
  let found := find_mojo_test_files tests_dir (Some t) in
  Sorted str_le found
  /\ StronglySorted str_le found
  /\ Permutation (candidates tests_dir t) found
  /\ (forall p, In p found <-> mojo_file_path tests_dir t p)
  /\ (forall t', reordered t t' ->
        find_mojo_test_files tests_dir (Some t') = found)
  /\ find_mojo_test_files tests_dir (Some t) = found
  /\ find_mojo_test_files tests_dir None = [].
Proof.
  cbn zeta.
  change (find_mojo_test_files tests_dir (Some t))
    with (sorted (candidates tests_dir t)).
  repeat split.
  - apply sorted_Sorted.
  - apply sorted_StronglySorted.
  - apply sorted_perm.
  - intros Hin. apply candidates_spec.
    eapply Permutation_in; [apply Permutation_sym, sorted_perm | exact Hin].
  - intros Hp. apply candidates_spec in Hp.
    eapply Permutation_in; [apply sorted_perm | exact Hp].
  - intros t' Hre.
    change (find_mojo_test_files tests_dir (Some t'))
      with (sorted (candidates tests_dir t')).
    apply sorted_perm_eq. apply Permutation_sym.
    apply candidates_reordered. exact Hre.
Qed.

End DiscoveryFacts.

(** ** Running the tests *)

Section RunnerFacts.

Context `{FloatOps} (P : platform).

Local Abbreviation duration_at := (RunnerSpec.duration_at P).
Local Abbreviation passes := (RunnerSpec.passes P).
Local Abbreviation failed_count := (RunnerSpec.failed_count P).
Local Abbreviation failures := (RunnerSpec.failures P).
Local Abbreviation successes := (RunnerSpec.successes P).
Local Abbreviation discovered := (RunnerSpec.discovered P).

(** C7: [run_test] always returns.  When the call of the test command
    raises, the result is a failure with empty standard output and the
    exception's message as error output; when the command runs, the result
    carries its output and the file passes exactly when the exit code is
    zero. *)
Theorem run_test_spec (test_file : string) (s : state) :
  exists r s',
    run_test P test_file s = (Ok r, s')
    /\ fst (fst (fst r)) = passes test_file
    /\ (forall class message,
          run_program P (test_command test_file) = LaunchFailed class message ->
          r = (false, duration_at s, "", message))
    /\ (forall returncode stdout stderr,
          run_program P (test_command test_file)
            = Completed returncode stdout stderr ->
          r = (Z.eqb returncode 0, duration_at s, stdout, stderr)
          /\ (fst (fst (fst r)) = true <-> returncode = 0%Z)).
Proof.
  unfold run_test, time_time, subprocess_run, emit, bind, ret,
    RunnerSpec.passes, RunnerSpec.duration_at. cbn [ticks trace].
  destruct (run_program P (test_command test_file)) as [rc out err|c m];
    cbn [ticks trace]; eexists; eexists; (split; [reflexivity|]);
    cbn [fst]; repeat split; try congruence.
  - intros Hrc. apply Z.eqb_eq in Hrc. congruence.
  - intros Hrc. apply Z.eqb_eq. congruence.
Qed.

Lemma ran_app (l1 l2 : list event) : ran (l1 ++ l2) = (ran l1 ++ ran l2)%list.
Proof. apply flat_map_app. Qed.

Lemma divisors_app (l1 l2 : list event) :
  divisors (l1 ++ l2) = (divisors l1 ++ divisors l2)%list.
Proof. apply flat_map_app. Qed.

(** The loop runs every file once, in order, never raises, and counts. *)
Lemma run_loop_spec (files : list string) :
  forall i total passed failed s,
  exists s',
    run_loop P i total files passed failed s
      = (Ok ((passed + successes files)%nat, (failed + failures files)%nat), s')
    /\ ran (trace s') = (ran (trace s) ++ map test_command files)%list
    /\ divisors (trace s') = divisors (trace s).
Proof.
  unfold RunnerSpec.successes, RunnerSpec.failures.
  induction files as [|file files IH]; intros i total passed failed s.
  - exists s. cbn. rewrite !Nat.add_0_r, app_nil_r. repeat split.
  - cbn [run_loop filter map].
    unfold run_test, time_time, subprocess_run, print, emit, bind, ret,
      RunnerSpec.passes.
    cbn [ticks trace].
    destruct (run_program P (test_command file)) as [rc out err|c m];
      cbn [ticks trace fst snd negb].
    + destruct (Z.eqb rc 0); cbn [ticks trace fst snd negb List.length].
      * match goal with
        | |- context [run_loop P ?i' ?t' files ?p' ?f' ?s1] =>
            destruct (IH i' t' p' f' s1) as (s' & Hloop & Hran & Hdiv)
        end.
        exists s'. rewrite Hloop, Hran, Hdiv. cbn [trace].
        rewrite !ran_app, !divisors_app. cbn.
        rewrite !app_nil_r, <- app_assoc, <- Nat.add_assoc. repeat split.
      * destruct (negb (String.eqb err "")); cbn [ticks trace fst snd];
        match goal with
        | |- context [run_loop P ?i' ?t' files ?p' ?f' ?s1] =>
            destruct (IH i' t' p' f' s1) as (s' & Hloop & Hran & Hdiv)
        end;
        exists s'; rewrite Hloop, Hran, Hdiv; cbn [trace];
        rewrite !ran_app, !divisors_app; cbn;
        rewrite !app_nil_r, <- app_assoc, <- Nat.add_assoc; repeat split.
    + destruct (negb (String.eqb m "")); cbn [ticks trace fst snd];
      match goal with
      | |- context [run_loop P ?i' ?t' files ?p' ?f' ?s1] =>
          destruct (IH i' t' p' f' s1) as (s' & Hloop & Hran & Hdiv)
      end;
      exists s'; rewrite Hloop, Hran, Hdiv; cbn [trace];
      rewrite !ran_app, !divisors_app; cbn;
      rewrite !app_nil_r, <- app_assoc, <- Nat.add_assoc; repeat split.
Qed.

(** What [main] does, from any state. *)
Lemma main_spec (s : state) :
  match discovered with
  | [] => main P s = (Ok tt, mkState (ticks s) (trace s ++ [notice]))
  | _ :: _ =>
      exists s',
        main P s
          = (if (0 <? failures discovered)%nat
             then Raise (SystemExit 1) else Ok tt, s')
        /\ ran (trace s') = (ran (trace s) ++ map test_command discovered)%list
        /\ divisors (trace s')
           = (divisors (trace s) ++ [Z.of_nat (List.length discovered)])%list
  end.
Proof.
  unfold main, RunnerSpec.discovered. cbn zeta.
  destruct (find_mojo_test_files "tests" (tests P)) as [|file files] eqn:Hfiles.
  - reflexivity.
  - set (l := file :: files).
    unfold print, emit, time_time, truediv, bind, ret, raise.
    cbn [ticks trace].
    match goal with
    | |- context [run_loop P 1 ?t' l 0 0 ?s1] =>
        destruct (run_loop_spec l 1 t' 0 0 s1) as (s' & Hloop & Hran & Hdiv)
    end.
    rewrite Hloop. cbn [ticks trace Nat.add].
    assert (Hlen : Z.eqb (Z.of_nat (List.length l)) 0 = false).
    { subst l. cbn [List.length]. rewrite Nat2Z.inj_succ.
      apply Z.eqb_neq. lia. }
    rewrite Hlen. cbn [ticks trace] in *.
    destruct (0 <? failures l)%nat; eexists; (split; [reflexivity|]);
      cbn [trace]; rewrite !ran_app, !divisors_app, Hran, Hdiv;
      cbn [ran divisors flat_map app]; rewrite ?app_nil_r;
      rewrite !ran_app, !divisors_app; cbn [ran divisors flat_map app];
      rewrite ?app_nil_r; split; reflexivity.
Qed.

Lemma failed_count_failures : failed_count = failures discovered.
Proof. reflexivity. Qed.

(** C2: the exit status of a run of [main] is 0 exactly when no discovered
    file failed, which includes the run that discovers no file, and it is 1
    exactly when at least one file failed. *)
Theorem main_exit_status (s : state) :
  let status := exit_status (fst (main P s)) in
  (status = 0%Z <-> failed_count = 0%nat)
  /\ (status = 1%Z <-> (0 < failed_count)%nat)
  /\ (discovered = [] -> status = 0%Z /\ failed_count = 0%nat).
Proof.
  cbn zeta. rewrite failed_count_failures.
  pose proof (main_spec s) as Hmain.
  destruct discovered as [|file files] eqn:Hd.
  - rewrite Hmain. cbn. repeat split; intros; try reflexivity; try lia;
      discriminate.
  - destruct Hmain as (s' & -> & _). cbn [fst].
    destruct (0 <? failures (file :: files))%nat eqn:Hf.
    + apply Nat.ltb_lt in Hf. cbn [exit_status].
      repeat split; intros; try reflexivity; try lia; discriminate.
    + apply Nat.ltb_ge in Hf. cbn [exit_status].
      repeat split; intros; try reflexivity; try lia; discriminate.
Qed.

(** C8: when no test file is discovered, [main] prints the notice and
    returns: it runs no test, reads no clock and divides nothing.  In every
    run, a division made by [main] has the number of discovered files as its
    divisor, at least one file was discovered, and [ZeroDivisionError] is
    not raised. *)
Theorem main_divides_only_by_positive_count (s : state) :
  (discovered = [] ->
     main P s = (Ok tt, mkState (ticks s) (trace s ++ [notice]))
     /\ ran (trace (snd (main P s))) = ran (trace s)
     /\ divisors (trace (snd (main P s))) = divisors (trace s))
  /\ (forall n,
        In n (divisors (trace (snd (main P s)))) ->
        In n (divisors (trace s))
        \/ (n = Z.of_nat (List.length discovered)
            /\ discovered <> [] /\ (0 < n)%Z))
  /\ fst (main P s) <> Raise ZeroDivisionError.
Proof.
  pose proof (main_spec s) as Hmain.
  destruct discovered as [|file files] eqn:Hd.
  - rewrite Hmain. cbn [fst snd trace]. repeat split.
    + rewrite ran_app. cbn. apply app_nil_r.
    + rewrite divisors_app. cbn. apply app_nil_r.
    + intros n Hn. left. rewrite divisors_app in Hn. cbn in Hn.
      rewrite app_nil_r in Hn. exact Hn.
    + discriminate.
  - destruct Hmain as (s' & -> & _ & Hdiv). cbn [fst snd].
    repeat split.
    + discriminate.
    + discriminate.
    + discriminate.
    + intros n Hn. rewrite Hdiv in Hn. apply in_app_or in Hn.
      destruct Hn as [Hn|[Hn|[]]]; [now left|]. right. subst n.
      split; [reflexivity|]. split; [discriminate|]. cbn [List.length]. lia.
    + destruct (0 <? failures (file :: files))%nat; discriminate.
Qed.

End RunnerFacts.

(** ** The theorems on the sample project *)

Import Sample.

Example glob_conda_sample :
  glob_conda "/bld" disk = ["/bld/a.conda"; "/bld/bad.conda"].
Proof. reflexivity. Qed.

Example dirname_sample :
  dirname "/home/u/tmp" = Some "/home/u" /\ dirname "recipe.yaml" = None.
Proof. split; reflexivity. Qed.

Example publish_sample :
  fst (publish E0 "chan" w0) = Ok tt
  /\ removals (log (snd (publish E0 "chan" w0)))
     = ["/bld/a.conda"; "/bld/bad.conda"].
Proof. split; reflexivity. Qed.

Example build_sample_recipe_missing_readme :
  fst (build_conda_package E0 (start [("/bld", Dir)]))
  = Raise (FileNotFoundError "README.md").
Proof. reflexivity. Qed.

Example prepare_sample :
  inside "/home/u/tmp" (fs (snd (prepare_temp_directory E0 w1)))
  = [("/home/u/tmp", Dir); ("/home/u/tmp/zlib.mojopkg", File "mojopkg")].
Proof. reflexivity. Qed.

Example os_path_join_sample :
  os_path_join "tests" "unit" = "tests/unit"
  /\ os_path_join "tests/" "a.mojo" = "tests/a.mojo"
  /\ os_path_join "" "a.mojo" = "a.mojo".
Proof. repeat split; reflexivity. Qed.

Example find_mojo_test_files_sample :
  find_mojo_test_files "tests" (Some tests_tree)
  = ["tests/test_zlib.mojo"; "tests/unit/test_adler.mojo";
     "tests/unit/test_crc.mojo"].
Proof. reflexivity. Qed.

Example run_test_sample_launch_failure :
  fst (run_test (runner None) "tests/unit/test_adler.mojo" initial)
  = Ok (false, 1%Z, "", "[Errno 2] No such file or directory").
Proof. reflexivity. Qed.

Example main_sample_fails :
  exit_status (fst (main (runner (Some tests_tree)) initial)) = 1%Z
  /\ failed_count (runner (Some tests_tree)) = 2%nat
  /\ divisors (trace (snd (main (runner (Some tests_tree)) initial))) = [3%Z].
Proof. repeat split; reflexivity. Qed.

Example main_sample_no_tests :
  main (runner None) initial = (Ok tt, mkState 0 [notice]).
Proof. reflexivity. Qed.

Ltac distinct_keys :=
  repeat (constructor;
          [ cbn; intros Hin;
            repeat (destruct Hin as [Hin|Hin]; [discriminate Hin|]);
            exact Hin | ]);
  constructor.

Lemma generate_recipe_spec_witness :
  exists (r : recipe) (deps : list (string * toml)),
    snd (generate_recipe E0 w0)
      = mkWorld (fs_put "recipe.yaml" (File (yaml_dump E0 r)) (fs w0))
                (log w0 ++ [Util.EvWrite "recipe.yaml" (yaml_dump E0 r)])
    /\ config2 E0 "package" "name" = Ok (package_name r)
    /\ config2 E0 "package" "version" = Ok (package_version r)
    /\ build_script r = ["mkdir -p ${PREFIX}/lib/mojo"; build_line "zlib"]
    /\ (forall n, package_name r = TStr n -> n <> "zlib" ->
        ~ In (build_line n) (build_script r))
    /\ dependencies E0 = Ok deps
    /\ Forall2 (fun dv line => format_dependency_value (fst dv) (snd dv) = Ok line)
               deps (requirements_run r).
Proof.
  apply (generate_recipe_spec E0 w0 (snd (generate_recipe E0 w0))).
  vm_compute. reflexivity.
Defined.

Lemma publish_uploads_and_deletes_every_file_witness :
  exists w',
    publish E0 "chan" w0 = (Ok tt, w')
    /\ log w' = (log w0 ++ publish_header E0 "chan"
                   :: flat_map (file_events "chan") ["/bld/a.conda"; "/bld/bad.conda"])%list
    /\ runs (log w')
       = (runs (log w0)
          ++ map (upload_command "chan") ["/bld/a.conda"; "/bld/bad.conda"])%list
    /\ removals (log w') = (removals (log w0) ++ ["/bld/a.conda"; "/bld/bad.conda"])%list
    /\ List.length (runs (log w')) = (List.length (runs (log w0)) + 2)%nat
    /\ List.length (removals (log w')) = (List.length (removals (log w0)) + 2)%nat
    /\ fs w' = delete_all ["/bld/a.conda"; "/bld/bad.conda"] (fs w0)
    /\ (forall file, In file ["/bld/a.conda"; "/bld/bad.conda"] ->
        fs_exists file (fs w') = false).
Proof.
  apply (publish_uploads_and_deletes_every_file E0 "chan" w0).
  - distinct_keys.
  - intros file Hin. vm_compute in Hin.
    destruct Hin as [<-|[<-|[]]]; eexists; reflexivity.
  - intros file f Hin. vm_compute in Hin.
    destruct Hin as [<-|[<-|[]]]; eexists; eexists; eexists; reflexivity.
Defined.


Lemma publish_stops_at_launch_failure_witness :
  exists w',
    publish (project programs_upload_breaks) "chan" w0
      = (Raise (OtherError "PermissionError" "[Errno 13] Permission denied"), w')
    /\ is_CalledProcessError
         (OtherError "PermissionError" "[Errno 13] Permission denied") = false
    /\ fs w' = delete_all ["/bld/a.conda"] (fs w0)
    /\ log w'
       = (log w0 ++ publish_header (project programs_upload_breaks) "chan"
            :: flat_map (file_events "chan") ["/bld/a.conda"]
            ++ [uploading "chan" "/bld/bad.conda";
                Util.EvRun (upload_command "chan" "/bld/bad.conda")])%list
    /\ runs (log w')
       = (runs (log w0) ++ map (upload_command "chan") ["/bld/a.conda"]
            ++ [upload_command "chan" "/bld/bad.conda"])%list
    /\ removals (log w') = (removals (log w0) ++ ["/bld/a.conda"])%list
    /\ (forall q, In q ["/bld/bad.conda"] ->
        ~ In q ["/bld/a.conda"]
        /\ fs_lookup q (delete_all ["/bld/a.conda"] (fs w0)) = fs_lookup q (fs w0))
    /\ (forall q, In q [] ->
        ~ In (upload_command "chan" q)
             (map (upload_command "chan") ["/bld/a.conda"]
              ++ [upload_command "chan" "/bld/bad.conda"])%list).
Proof.
  apply (publish_stops_at_launch_failure (project programs_upload_breaks) "chan"
           w0 ["/bld/a.conda"] [] "/bld/bad.conda").
  - distinct_keys.
  - reflexivity.
  - intros file Hin. destruct Hin as [<-|[]]. eexists. reflexivity.
  - intros file f Hin. destruct Hin as [<-|[]].
    eexists; eexists; eexists; reflexivity.
  - reflexivity.
Defined.

Lemma build_conda_package_spec_witness :
  (exists (r : recipe) out err f1,
      Util.run_program E0 (build_command E0)
        (fs_put RECIPE_PATH (File (yaml_dump E0 r)) (fs w0))
        = (Completed 0 out err, f1)
      /\ log (snd (build_conda_package E0 w0))
         = (log w0 ++ [Util.EvWrite RECIPE_PATH (yaml_dump E0 r);
                       Util.EvRun (build_command E0);
                       Util.EvRemove RECIPE_PATH])%list
      /\ fs (snd (build_conda_package E0 w0)) = fs_delete RECIPE_PATH f1
      /\ fs_exists RECIPE_PATH (fs (snd (build_conda_package E0 w0))) = false)
  /\ (exists out err f1,
      Util.run_program E0 (build_command E0) (fs w1) = (Completed 0 out err, f1)
      /\ log (snd (build_conda_package E0 w1))
         = (log w1 ++ [Util.EvRun (build_command E0);
                       Util.EvRemove RECIPE_PATH])%list
      /\ fs (snd (build_conda_package E0 w1)) = fs_delete RECIPE_PATH f1
      /\ fs_exists RECIPE_PATH (fs (snd (build_conda_package E0 w1))) = false)
  /\ (build_conda_package (project programs_build_fails) w1
        = (Raise (CalledProcessError (build_command (project programs_build_fails)) 2),
           mkWorld (fs w1)
                   (log w1 ++ [Util.EvRun (build_command (project programs_build_fails))]))
      /\ runs (log w1 ++ [Util.EvRun (build_command (project programs_build_fails))])
         = (runs (log w1) ++ [build_command (project programs_build_fails)])%list
      /\ removals (log w1 ++ [Util.EvRun (build_command (project programs_build_fails))])
         = removals (log w1)).
Proof.
  split; [|split].
  - apply (proj1 (build_conda_package_spec E0 w0)); vm_compute; reflexivity.
  - apply (proj1 (proj2 (build_conda_package_spec E0 w1))); vm_compute; reflexivity.
  - apply (proj2 (proj2 (build_conda_package_spec (project programs_build_fails) w1))
             w1 2%Z "" "error: build failed" (fs w1)).
    + reflexivity.
    + reflexivity.
    + discriminate.
Defined.

Lemma packager_writes_output_sample : packager_writes_output E0.
Proof.
  intros package f out err f' Hrun. cbn in Hrun.
  inversion Hrun. eexists. reflexivity.
Defined.

Lemma prepare_temp_directory_spec_witness :
  exists package c out err,
    let clean := (outside (TEMP_DIR E0) (fs w1) ++ [(TEMP_DIR E0, Dir)])%list in
    inside (TEMP_DIR E0) clean = [(TEMP_DIR E0, Dir)]
    /\ Util.run_program E0 (package_command E0 package) clean
       = (Completed 0 out err, fs (snd (prepare_temp_directory E0 w1)))
    /\ fs (snd (prepare_temp_directory E0 w1))
       = (clean ++ [(artifact_path E0 package, File c)])%list
    /\ fs_lookup (TEMP_DIR E0) (fs (snd (prepare_temp_directory E0 w1))) = Some Dir
    /\ inside (TEMP_DIR E0) (fs (snd (prepare_temp_directory E0 w1)))
       = [(TEMP_DIR E0, Dir); (artifact_path E0 package, File c)]
    /\ outside (TEMP_DIR E0) (fs (snd (prepare_temp_directory E0 w1)))
       = outside (TEMP_DIR E0) (fs w1)
    /\ exists w'',
        prepare_temp_directory E0 (snd (prepare_temp_directory E0 w1)) = (Ok tt, w'')
        /\ fs w'' = fs (snd (prepare_temp_directory E0 w1)).
Proof.
  apply (prepare_temp_directory_spec E0 w1 (snd (prepare_temp_directory E0 w1))).
  - exact packager_writes_output_sample.
  - intros Hex. vm_compute in Hex. discriminate Hex.
  - vm_compute. reflexivity.
Defined.


(** * Further properties *)

(** ** The formatter: when it raises, and how much it keeps *)

Section FormatterMore.

Import UtilMore.

Lemma app_inv_head_str (a b c : string) : a ++ b = a ++ c -> b = c.
Proof.
  induction a as [|x a IH]; simpl; intros Heq; [exact Heq|].
  inversion Heq. auto.
Qed.

(** The text after the name and the space, by cases on the specifier. *)
Lemma format_dependency_cases (n s : string) :
  match s with
  | EmptyString => format_dependency n s = Raise IndexError
  | String c0 rest =>
      if in_lt_gt c0 then
        match rest with
        | EmptyString => format_dependency n s = Raise IndexError
        | String c1 rest' =>
            if Ascii.eqb c1 "=" then
              format_dependency n s
              = Ok (n ++ " " ++ String c0 (String "=" (String " " rest')))
            else
              format_dependency n s
              = Ok (n ++ " " ++ String c0 (String " " rest))
        end
      else format_dependency n s = Ok (n ++ " " ++ "== " ++ s)
  end.
Proof.
  destruct s as [|c0 rest]; [reflexivity|].
  unfold format_dependency, str_getitem. cbn [String.get rbind].
  destruct (in_lt_gt c0) eqn:Hc0; [|reflexivity].
  destruct rest as [|c1 rest']; [reflexivity|].
  cbn [String.get rbind].
  destruct (Ascii.eqb c1 "=") eqn:Hc1; cbn [negb rbind slice_to slice_from].
  - apply Ascii.eqb_eq in Hc1. subst c1. reflexivity.
  - reflexivity.
Qed.

(** X1: [format_dependency] raises exactly on the empty specifier and on a
    bare [<] or [>], and what it raises is [IndexError]. *)
Theorem format_dependency_raises_iff (n s : string) :
  (forall e, format_dependency n s = Raise e ->
             e = IndexError /\ specifier_ok s = false)
  /\ (specifier_ok s = false <-> s = "" \/ s = "<" \/ s = ">")
  /\ (specifier_ok s = false -> format_dependency n s = Raise IndexError)
  /\ (specifier_ok s = true -> exists r, format_dependency n s = Ok r).
Proof.
  pose proof (format_dependency_cases n s) as Hc.
  assert (Hiff : specifier_ok s = false <-> s = "" \/ s = "<" \/ s = ">").
  { destruct s as [|c0 [|c1 rest]]; cbn [specifier_ok]; split; intros Hs;
      try discriminate; auto.
    - apply negb_false_iff in Hs.
      destruct (in_lt_gt_cases _ Hs); subst; auto.
    - destruct Hs as [Hs|[Hs|Hs]]; inversion Hs; reflexivity.
    - destruct Hs as [Hs|[Hs|Hs]]; inversion Hs. }
  destruct s as [|c0 [|c1 rest]]; cbn [specifier_ok] in *.
  - repeat split; try tauto; try discriminate.
    + rewrite Hc in H. inversion H. reflexivity.
  - destruct (in_lt_gt c0); cbn [negb].
    + repeat split; try tauto; try discriminate.
      rewrite Hc in H. inversion H. reflexivity.
    + repeat split; try tauto; try discriminate.
      * rewrite Hc in H. discriminate.
      * rewrite Hc in H. discriminate.
      * intros _. eexists. exact Hc.
  - destruct (in_lt_gt c0); [destruct (Ascii.eqb c1 "=")|];
      (repeat split; try tauto; try discriminate;
       [ rewrite Hc in H; discriminate
       | rewrite Hc in H; discriminate
       | intros _; eexists; exact Hc ]).
Qed.

(** X2: for a given name, two specifiers with the same formatted constraint
    are the same specifier. *)
Theorem format_dependency_injective (n s1 s2 r : string) :
  format_dependency n s1 = Ok r ->
  format_dependency n s2 = Ok r ->
  s1 = s2.
Proof.
  intros H1 H2.
  pose proof (format_dependency_cases n s1) as C1.
  pose proof (format_dependency_cases n s2) as C2.
  destruct s1 as [|a0 r1]; [congruence|].
  destruct s2 as [|b0 r2]; [congruence|].
  destruct (in_lt_gt a0) eqn:Ha; destruct (in_lt_gt b0) eqn:Hb.
  - destruct r1 as [|a1 r1]; [congruence|].
    destruct r2 as [|b1 r2]; [congruence|].
    destruct (Ascii.eqb a1 "=") eqn:Ha1; destruct (Ascii.eqb b1 "=") eqn:Hb1;
      rewrite C1 in H1; rewrite C2 in H2; rewrite <- H2 in H1;
      inversion H1 as [Heq]; apply app_inv_head_str in Heq;
      inversion Heq; subst; try reflexivity.
    apply Ascii.eqb_eq in Ha1, Hb1. subst. reflexivity.
  - destruct r1 as [|a1 r1]; [congruence|].
    destruct (Ascii.eqb a1 "=");
      rewrite C1 in H1; rewrite C2 in H2; rewrite <- H2 in H1;
      inversion H1 as [Heq]; apply app_inv_head_str in Heq;
      inversion Heq; subst; vm_compute in Ha; discriminate Ha.
  - destruct r2 as [|b1 r2]; [congruence|].
    destruct (Ascii.eqb b1 "=");
      rewrite C1 in H1; rewrite C2 in H2; rewrite <- H2 in H1;
      inversion H1 as [Heq]; apply app_inv_head_str in Heq;
      inversion Heq; subst; vm_compute in Hb; discriminate Hb.
  - rewrite C1 in H1. rewrite C2 in H2. rewrite <- H2 in H1.
    inversion H1 as [Heq]. apply app_inv_head_str in Heq.
    inversion Heq. reflexivity.
Qed.

Lemma format_dependency_injective_witness : ">=1.2.3" = ">=1.2.3".
Proof.
  apply (format_dependency_injective "zlib" ">=1.2.3" ">=1.2.3" "zlib >= 1.2.3");
    reflexivity.
Defined.

End FormatterMore.

(** ** Computations that fail without a trace *)

Section CleanFailure.

Import UtilMore.

Lemma lift_keeps_state {S A} (r : result A) : keeps_state (@lift S A r).
Proof. intros s r' s' Heq. unfold lift in Heq. inversion Heq. reflexivity. Qed.

Lemma bind_fails_clean {S A B} (m : M S A) (k : A -> M S B) :
  keeps_state m -> (forall a, fails_clean (k a)) -> fails_clean (bind m k).
Proof.
  intros Hm Hk s e s' Hrun. unfold bind in Hrun.
  destruct (m s) as [[a|e0] s1] eqn:Hms.
  - apply Hm in Hms. subst s1. exact (Hk a _ _ _ Hrun).
  - apply Hm in Hms. inversion Hrun. congruence.
Qed.

Lemma Path_read_text_keeps_state (p : string) : keeps_state (Path_read_text p).
Proof.
  intros s r s'. unfold Path_read_text, get_fs, bind, ret, raise.
  destruct (fs_lookup p (fs s)) as [[c|]|]; intros Heq; inversion Heq; reflexivity.
Qed.

Lemma Path_write_fails_clean (p content : string) :
  fails_clean (Path_write p content).
Proof.
  intros s e s'.
  unfold Path_write, get_fs, set_fs, Util.emit, lift, bind, raise.
  destruct (fs_lookup p (fs s)) as [[c|]|];
    destruct (check_parent p (fs s)) as [[]|e0];
    intros Heq; inversion Heq; reflexivity.
Qed.

End CleanFailure.

(** [generate_recipe] reads, then writes in its last step. *)
Ltac recipe_fails_clean :=
  unfold generate_recipe; cbn zeta;
  repeat (apply bind_fails_clean; [apply lift_keeps_state | intros ?]);
  (apply bind_fails_clean; [apply Path_read_text_keeps_state | intros ?]);
  (apply bind_fails_clean; [apply lift_keeps_state | intros ?]);
  apply Path_write_fails_clean.

(** ** The recipe generator: success, failure and repetition *)

Section RecipeMore.

Import UtilMore.

Variable E : env.

Local Abbreviation dependencies := (UtilSpec.dependencies E).
Local Abbreviation has_key := (UtilMore.has_key E).
Local Abbreviation config_complete := (UtilMore.config_complete E).

Lemma fs_lookup_put_eq (p : string) (n : node) (f : filesystem) :
  fs_lookup p (fs_put p n f) = Some n.
Proof.
  induction f as [|[k m] f IH]; simpl.
  - rewrite String.eqb_refl. reflexivity.
  - destruct (String.eqb k p) eqn:Hk; simpl; rewrite Hk; [reflexivity | exact IH].
Qed.

Lemma fs_lookup_put_ne (p q : string) (n : node) (f : filesystem) :
  q <> p -> fs_lookup q (fs_put p n f) = fs_lookup q f.
Proof.
  intros Hne. induction f as [|[k m] f IH]; simpl.
  - destruct (String.eqb p q) eqn:Hpq; [|reflexivity].
    apply String.eqb_eq in Hpq. congruence.
  - destruct (String.eqb k p) eqn:Hk; simpl.
    + apply String.eqb_eq in Hk. subst k.
      destruct (String.eqb p q) eqn:Hpq; [|reflexivity].
      apply String.eqb_eq in Hpq. congruence.
    + rewrite IH. reflexivity.
Qed.

Lemma fs_put_put (p : string) (n m : node) (f : filesystem) :
  fs_put p n (fs_put p m f) = fs_put p n f.
Proof.
  induction f as [|[k x] f IH]; simpl.
  - rewrite String.eqb_refl. reflexivity.
  - destruct (String.eqb k p) eqn:Hk; simpl; rewrite Hk; [reflexivity|].
    rewrite IH. reflexivity.
Qed.

Lemma format_dependency_value_Ok (k : string) (v : toml) :
  (exists line, format_dependency_value k v = Ok line) <-> entry_ok (k, v) = true.
Proof.
  unfold entry_ok, format_dependency_value. cbn [snd].
  destruct v as [s|kv]; [|split; [intros [l Hl]; discriminate | discriminate]].
  pose proof (format_dependency_cases k s) as Hc.
  destruct s as [|c0 [|c1 rest]]; cbn [specifier_ok].
  - rewrite Hc. split; [intros [l Hl]; discriminate | discriminate].
  - destruct (in_lt_gt c0); cbn [negb]; rewrite Hc.
    + split; [intros [l Hl]; discriminate | discriminate].
    + split; [reflexivity | intros _; eexists; reflexivity].
  - destruct (in_lt_gt c0); [destruct (Ascii.eqb c1 "=")|]; rewrite Hc;
      (split; [reflexivity | intros _; eexists; reflexivity]).
Qed.

Lemma rmap_entries_Ok (deps : list (string * toml)) :
  (exists run, rmap (fun dv => format_dependency_value (fst dv) (snd dv)) deps = Ok run)
  <-> forallb entry_ok deps = true.
Proof.
  induction deps as [|[k v] deps IH]; cbn [rmap forallb fst snd].
  - split; [reflexivity | intros _; eexists; reflexivity].
  - rewrite andb_true_iff, <- IH, <- (format_dependency_value_Ok k v).
    destruct (format_dependency_value k v) as [line|e].
    + destruct (rmap _ deps) as [run|e].
      * split; [intros _; split; eexists; reflexivity
               | intros _; eexists; reflexivity].
      * split; [intros [r Hr]; discriminate
               | intros [_ [r Hr]]; discriminate].
    + split; [intros [r Hr]; discriminate | intros [[l Hl] _]; discriminate].
Qed.

(** Everything a successful [generate_recipe] has read, and what it wrote. *)
Lemma generate_recipe_reads (w w' : world) :
  generate_recipe E w = (Ok tt, w') ->
  exists name version license_file deps run
         homepage license summary description repository,
    config2 E "package" "name" = Ok name
    /\ config2 E "package" "version" = Ok version
    /\ config2 E "workspace" "license-file" = Ok license_file
    /\ dependencies = Ok deps
    /\ rmap (fun dv => format_dependency_value (fst dv) (snd dv)) deps = Ok run
    /\ config2 E "workspace" "homepage" = Ok homepage
    /\ config2 E "workspace" "license" = Ok license
    /\ config2 E "workspace" "description" = Ok summary
    /\ fs_lookup "README.md" (fs w) = Some (File description)
    /\ config2 E "workspace" "repository" = Ok repository
    /\ fs_lookup "recipe.yaml" (fs w) <> Some Dir
    /\ w' = (let r :=
               mkRecipe "13.4.2" name version [TStr "src"; license_file]
                 ["mkdir -p ${PREFIX}/lib/mojo"; build_line "zlib"] run
                 homepage license license_file summary description repository in
             mkWorld (fs_put "recipe.yaml" (File (yaml_dump E r)) (fs w))
                     (log w ++ [Util.EvWrite "recipe.yaml" (yaml_dump E r)])).
Proof.
  unfold generate_recipe. intros Hrun.
  inv_bind Hrun. inv_lift Hstep. rename a into name.
  inv_bind Hrun. inv_lift Hstep. rename a into version.
  inv_bind Hrun. inv_lift Hstep. rename a into license_file.
  inv_bind Hrun. inv_lift Hstep. rename a into deps.
  inv_bind Hrun. inv_lift Hstep. rename a into run.
  inv_bind Hrun. inv_lift Hstep. rename a into homepage.
  inv_bind Hrun. inv_lift Hstep. rename a into license.
  inv_bind Hrun. inv_lift Hstep. rename a into license_file'.
  inv_bind Hrun. inv_lift Hstep. rename a into summary.
  inv_bind Hrun. rename a into description.
  assert (Hread : s = w /\ fs_lookup "README.md" (fs w) = Some (File description)).
  { unfold Path_read_text, get_fs, bind, ret, raise in Hstep.
    destruct (fs_lookup "README.md" (fs w)) as [[c|]|];
      inversion Hstep; split; reflexivity. }
  destruct Hread as [-> Hreadme].
  inv_bind Hrun. inv_lift Hstep0. rename a into repository.
  assert (license_file' = license_file) by congruence. subst license_file'.
  exists name, version, license_file, deps, run,
         homepage, license, summary, description, repository.
  unfold Path_write, get_fs, set_fs, Util.emit, lift, bind in Hrun. cbn zeta.
  repeat split; try assumption.
  - intros Hdir. rewrite Hdir in Hrun. discriminate.
  - destruct (fs_lookup "recipe.yaml" (fs w)) as [[c|]|];
      simpl in Hrun; inversion Hrun; reflexivity.
Qed.

(** The run of [generate_recipe] when everything it needs is there. *)
Lemma generate_recipe_run (w : world)
  name version license_file deps run homepage license summary description repository :
  config2 E "package" "name" = Ok name ->
  config2 E "package" "version" = Ok version ->
  config2 E "workspace" "license-file" = Ok license_file ->
  dependencies = Ok deps ->
  rmap (fun dv => format_dependency_value (fst dv) (snd dv)) deps = Ok run ->
  config2 E "workspace" "homepage" = Ok homepage ->
  config2 E "workspace" "license" = Ok license ->
  config2 E "workspace" "description" = Ok summary ->
  fs_lookup "README.md" (fs w) = Some (File description) ->
  config2 E "workspace" "repository" = Ok repository ->
  fs_lookup "recipe.yaml" (fs w) <> Some Dir ->
  generate_recipe E w
  = (let r :=
       mkRecipe "13.4.2" name version [TStr "src"; license_file]
         ["mkdir -p ${PREFIX}/lib/mojo"; build_line "zlib"] run
         homepage license license_file summary description repository in
     (Ok tt, mkWorld (fs_put "recipe.yaml" (File (yaml_dump E r)) (fs w))
                     (log w ++ [Util.EvWrite "recipe.yaml" (yaml_dump E r)]))).
Proof.
  intros Hn Hv Hlf Hd Hr Hh Hl Hs Hreadme Hrepo Hdir.
  unfold UtilSpec.dependencies in Hd.
  unfold generate_recipe, Path_read_text, Path_write, get_fs, set_fs,
    Util.emit, lift, bind, ret, raise.
  rewrite Hn, Hv, Hlf, Hd, Hr, Hh, Hl, Hs, Hreadme, Hrepo. cbn zeta.
  destruct (fs_lookup "recipe.yaml" (fs w)) as [[c|]|]; try reflexivity.
  contradiction Hdir. reflexivity.
Qed.


(** X4: when [generate_recipe] raises, it has written nothing and left no
    trace: the world is as it was. *)
Theorem generate_recipe_fails_clean (w w' : world) (e : exn) :
  generate_recipe E w = (Raise e, w') -> w' = w.
Proof.
  revert w e w'. change (fails_clean (generate_recipe E)).
  recipe_fails_clean.
Qed.


(** X6: generating the recipe again right after a successful generation
    succeeds and leaves the filesystem as the first generation left it. *)
Theorem generate_recipe_twice (w w1 : world) :
  generate_recipe E w = (Ok tt, w1) ->
  exists w2, generate_recipe E w1 = (Ok tt, w2) /\ fs w2 = fs w1.
Proof.
  intros Hrun. apply generate_recipe_reads in Hrun.
  destruct Hrun as (name & version & license_file & deps & run & homepage
                    & license & summary & description & repository
                    & Hn & Hv & Hlf & Hd & Hr & Hh & Hl & Hs & Hreadme
                    & Hrepo & Hdir & ->).
  cbn zeta. eexists. split.
  - apply (generate_recipe_run _ name version license_file deps run
             homepage license summary description repository);
      try assumption; cbn [fs].
    + rewrite fs_lookup_put_ne by discriminate. exact Hreadme.
    + rewrite fs_lookup_put_eq. discriminate.
  - cbn [fs]. apply fs_put_put.
Qed.

End RecipeMore.

(** ** The publisher: what it leaves alone, and running it again *)

Section PublishMore.

Variable E : env.
Variable channel : string.

Local Abbreviation publish_body := (UtilSpec.publish_body E channel).
Local Abbreviation publish_header := (UtilSpec.publish_header E channel).
Local Abbreviation uploading := (UtilSpec.uploading channel).
Local Abbreviation file_events := (UtilSpec.file_events channel).
Local Abbreviation uploads_exit := (UtilSpec.uploads_exit E channel).

Lemma In_keys_lookup (p : string) (f : filesystem) :
  In p (map fst f) -> fs_lookup p f <> None.
Proof.
  induction f as [|[k n] f IH]; simpl; [tauto|].
  intros [Hk|Hin].
  - subst k. rewrite String.eqb_refl. discriminate.
  - destruct (String.eqb k p); [discriminate | exact (IH Hin)].
Qed.

Lemma delete_all_keys (l : list string) (f : filesystem) (p : string) :
  In p (map fst (delete_all l f)) -> In p (map fst f).
Proof.
  revert f. induction l as [|q l IH]; intros f Hin; [exact Hin|].
  cbn [delete_all fold_left] in Hin. fold (delete_all l (fs_delete q f)) in Hin.
  apply IH in Hin. exact (filter_keys_incl _ _ _ Hin).
Qed.

Lemma glob_conda_after_delete (dir : string) (f : filesystem) :
  glob_conda dir (delete_all (glob_conda dir f) f) = [].
Proof.
  destruct (glob_conda dir (delete_all (glob_conda dir f) f)) as [|p l] eqn:Hg;
    [reflexivity|].
  assert (Hin : In p (glob_conda dir (delete_all (glob_conda dir f) f)))
    by (rewrite Hg; now left).
  apply glob_conda_In in Hin. destruct Hin as [Hkey Hname].
  exfalso. apply (In_keys_lookup _ _ Hkey).
  apply delete_all_gone. apply glob_conda_In. split; [|exact Hname].
  exact (delete_all_keys _ _ _ Hkey).
Qed.

(** The run of [publish] when every match is a regular file and every
    upload ends with an exit code. *)
Lemma publish_run (w : world) :
  NoDup (map fst (fs w)) ->
  regular_files (glob_conda (CONDA_BUILD_PATH E) (fs w)) (fs w) ->
  uploads_exit (glob_conda (CONDA_BUILD_PATH E) (fs w)) ->
  publish E channel w
  = (Ok tt,
     mkWorld (delete_all (glob_conda (CONDA_BUILD_PATH E) (fs w)) (fs w))
             (log w ++ publish_header
                :: flat_map file_events (glob_conda (CONDA_BUILD_PATH E) (fs w)))).
Proof.
  intros Hnd Hreg Hup. rewrite publish_unfold, loop_exit.
  - rewrite <- app_assoc. reflexivity.
  - apply NoDup_glob_conda. exact Hnd.
  - exact Hreg.
  - exact Hup.
Qed.

(** X7: a normal run of [publish] changes no path that is not a match of
    [*.conda] directly inside the build directory: files elsewhere, files
    with another extension and hidden files are as they were. *)
Theorem publish_keeps_other_files (w : world) (q : string) :
  NoDup (map fst (fs w)) ->
  regular_files (glob_conda (CONDA_BUILD_PATH E) (fs w)) (fs w) ->
  uploads_exit (glob_conda (CONDA_BUILD_PATH E) (fs w)) ->
  (forall name, q = CONDA_BUILD_PATH E ++ "/" ++ name ->
                match_star_conda name = false) ->
  fs_lookup q (fs (snd (publish E channel w))) = fs_lookup q (fs w).
Proof.
  intros Hnd Hreg Hup Hq. rewrite publish_run by assumption. cbn [snd fs].
  apply delete_all_lookup. intros Hin.
  apply glob_conda_In in Hin. destruct Hin as [_ (name & Hname & Hm)].
  rewrite (Hq name Hname) in Hm. discriminate.
Qed.

(** X8: running [publish] again after a normal run finds nothing to upload:
    it prints its header, runs no program and removes nothing. *)
Theorem publish_twice (w : world) :
  NoDup (map fst (fs w)) ->
  regular_files (glob_conda (CONDA_BUILD_PATH E) (fs w)) (fs w) ->
  uploads_exit (glob_conda (CONDA_BUILD_PATH E) (fs w)) ->
  exists w1,
    publish E channel w = (Ok tt, w1)
    /\ publish E channel w1
       = (Ok tt, mkWorld (fs w1) (log w1 ++ [publish_header])).
Proof.
  intros Hnd Hreg Hup. eexists. split; [apply publish_run; assumption|].
  rewrite publish_unfold. cbn [fs log].
  rewrite glob_conda_after_delete. reflexivity.
Qed.

(** X9: a directory whose name matches [*.conda] stops [publish]: its upload
    is attempted, [os.remove] then raises, the directory and the later
    matches stay, and the earlier files are gone. *)
Theorem publish_stops_at_directory
  (w : world) (pre post : list string) (d : string) :
  NoDup (map fst (fs w)) ->
  glob_conda (CONDA_BUILD_PATH E) (fs w) = (pre ++ d :: post)%list ->
  regular_files pre (fs w) ->
  uploads_exit (pre ++ [d]) ->
  fs_lookup d (fs w) = Some Dir ->
  publish E channel w
  = (Raise (IsADirectoryError d),
     mkWorld (delete_all pre (fs w))
             (log w ++ publish_header :: flat_map file_events pre
                ++ [uploading d; Util.EvRun (upload_command channel d)]))
  /\ forall q, In q (d :: post) ->
       fs_lookup q (delete_all pre (fs w)) = fs_lookup q (fs w).
Proof.
  intros Hnd Hglob Hreg Hup Hdir.
  assert (Hnd' : NoDup (pre ++ d :: post)).
  { rewrite <- Hglob. apply NoDup_glob_conda. exact Hnd. }
  assert (Hout : forall q, In q (d :: post) -> ~ In q pre).
  { intros q Hq. exact (NoDup_app_disjoint _ _ _ Hnd' Hq). }
  split.
  - rewrite publish_unfold, Hglob, for_each_app. unfold bind at 1.
    rewrite loop_exit.
    + cbn [for_each]. unfold bind.
      destruct (Hup d (delete_all pre (fs w))) as (rc & out & err & Hrun);
        [apply in_or_app; right; now left|].
      unfold UtilSpec.publish_body, Util.print,
        try_except_CalledProcessError_pass, subprocess_run_check, os_remove,
        Util.emit, get_fs, set_fs, bind, ret, raise.
      cbn [fs log]. rewrite Hrun. cbn [fs log].
      destruct (Z.eqb rc 0); cbn [is_CalledProcessError fs log];
        rewrite (delete_all_lookup pre (fs w) d) by (apply Hout; now left);
        rewrite Hdir; unfold UtilSpec.uploading;
        repeat rewrite <- app_assoc; reflexivity.
    + apply NoDup_app_remove_r in Hnd'. exact Hnd'.
    + exact Hreg.
    + intros file f Hin. apply Hup. apply in_or_app. now left.
  - intros q Hq. apply delete_all_lookup. exact (Hout q Hq).
Qed.

End PublishMore.


(** ** The build orchestrator: failures before and during the build *)

Section BuildMore.

Import UtilMore.

Variable E : env.

Local Abbreviation ensure_recipe := (UtilSpec.ensure_recipe E).

(** X10: when no recipe file is there and the generation raises,
    [build_conda_package] raises the same exception without running the
    build tool, and the world is as it was. *)
Theorem build_stops_when_generation_fails (w w' : world) (e : exn) :
  fs_exists RECIPE_PATH (fs w) = false ->
  generate_recipe E w = (Raise e, w') ->
  build_conda_package E w = (Raise e, w) /\ w' = w.
Proof.
  intros Hex Hgen.
  assert (Hclean : fails_clean (generate_recipe E)) by recipe_fails_clean.
  assert (Hw : w' = w) by exact (Hclean _ _ _ Hgen).
  subst w'. split; [|reflexivity].
  rewrite build_conda_package_unfold.
  apply bind_Raise_eq. rewrite (ensure_recipe_absent E _ Hex). exact Hgen.
Qed.

(** X11: when the recipe was generated by this call and the build tool then
    exits non-zero without touching it, the generated recipe stays on disk,
    and the next call finds it and does not generate again. *)
Theorem failed_build_leaves_generated_recipe
  (w w1 : world) (rc : Z) (out err : string) (f1 : filesystem) :
  fs_exists RECIPE_PATH (fs w) = false ->
  generate_recipe E w = (Ok tt, w1) ->
  Util.run_program E (build_command E) (fs w1) = (Completed rc out err, f1) ->
  rc <> 0%Z ->
  fs_lookup RECIPE_PATH f1 = fs_lookup RECIPE_PATH (fs w1) ->
  exists w' content,
    build_conda_package E w
      = (Raise (CalledProcessError (build_command E) rc), w')
    /\ fs w' = f1
    /\ fs_lookup RECIPE_PATH (fs w') = Some (File content)
    /\ ensure_recipe w' = (Ok tt, w').
Proof.
  intros Hex Hgen Hrun Hrc Hkeep.
  assert (Hrecipe : exists content,
             fs_lookup RECIPE_PATH (fs w1) = Some (File content)).
  { apply generate_recipe_Ok in Hgen.
    destruct Hgen as (name & version & license_file & deps & run & homepage
                      & license & summary & description & repository
                      & _ & _ & _ & _ & _ & ->).
    cbn zeta. cbn [fs]. eexists. apply fs_lookup_put_eq. }
  destruct Hrecipe as [content Hcontent].
  exists (mkWorld f1 (log w1 ++ [Util.EvRun (build_command E)])), content.
  assert (Hthere : fs_lookup RECIPE_PATH f1 = Some (File content))
    by (rewrite Hkeep; exact Hcontent).
  cbn [fs]. repeat split; try assumption.
  - assert (Hens : ensure_recipe w = (Ok tt, w1))
      by (rewrite (ensure_recipe_absent E _ Hex); exact Hgen).
    rewrite build_conda_package_unfold.
    rewrite (bind_Ok_eq _ _ _ _ _ Hens).
    apply bind_Raise_eq.
    apply (subprocess_run_check_nonzero E _ _ _ out err); assumption.
  - apply ensure_recipe_present. unfold fs_exists. cbn [fs].
    rewrite Hthere. reflexivity.
Qed.

End BuildMore.

(** ** The staging directory: removal, and failures after it *)

Section StagingMore.

Variable E : env.

Local Abbreviation populate := (UtilSpec.populate E).

Lemma fs_exists_outside (d : string) (f : filesystem) :
  fs_exists d (outside d f) = false.
Proof. unfold fs_exists. rewrite fs_lookup_outside, under_refl. reflexivity. Qed.

(** X12: a successful [remove_temp_directory] leaves no staging directory
    and changes nothing outside it, and calling it again does nothing at
    all. *)
Theorem remove_temp_directory_idempotent (w w1 : world) :
  remove_temp_directory E w = (Ok tt, w1) ->
  fs_exists (TEMP_DIR E) (fs w1) = false
  /\ (forall p, under (TEMP_DIR E) p = false ->
                fs_lookup p (fs w1) = fs_lookup p (fs w))
  /\ remove_temp_directory E w1 = (Ok tt, w1).
Proof.
  intros Hrun.
  assert (Hgone : fs_exists (TEMP_DIR E) (fs w1) = false
                  /\ forall p, under (TEMP_DIR E) p = false ->
                               fs_lookup p (fs w1) = fs_lookup p (fs w)).
  { destruct w as [f lg].
    destruct (fs_lookup (TEMP_DIR E) f) as [[c|]|] eqn:Hl.
    - unfold remove_temp_directory, Path_exists, shutil_rmtree, Util.print,
        Util.emit, get_fs, set_fs, bind, ret, raise, fs_exists in Hrun.
      cbn [fs log] in Hrun. rewrite Hl in Hrun. cbn [fs log] in Hrun.
      rewrite Hl in Hrun. discriminate.
    - rewrite (remove_temp_directory_present E f lg Hl) in Hrun.
      inversion Hrun. cbn [fs]. split; [apply fs_exists_outside|].
      intros p Hp. rewrite fs_lookup_outside, Hp. reflexivity.
    - unfold remove_temp_directory, Path_exists, Util.print,
        Util.emit, get_fs, set_fs, bind, ret, raise, fs_exists in Hrun.
      cbn [fs log] in Hrun. rewrite Hl in Hrun. inversion Hrun. cbn [fs].
      split; [unfold fs_exists; rewrite Hl; reflexivity | reflexivity]. }
  destruct Hgone as [Hgone Hsame]. repeat split; try assumption.
  unfold remove_temp_directory, Path_exists, get_fs, bind, ret.
  rewrite Hgone. reflexivity.
Qed.

(** X13: when the staging path is a regular file, [remove_temp_directory]
    and [prepare_temp_directory] raise [NotADirectoryError] after the
    message is printed; the filesystem is untouched and no program runs. *)
Theorem staging_path_is_a_file (w : world) (c : string) :
  fs_lookup (TEMP_DIR E) (fs w) = Some (File c) ->
  let w' := mkWorld (fs w) (log w ++ [Util.EvPrint "Removing temp directory."]) in
  remove_temp_directory E w = (Raise (NotADirectoryError (TEMP_DIR E)), w')
  /\ prepare_temp_directory E w = (Raise (NotADirectoryError (TEMP_DIR E)), w')
  /\ runs (log w') = runs (log w).
Proof.
  intros Hl. cbn zeta.
  assert (Hrm : remove_temp_directory E w
                = (Raise (NotADirectoryError (TEMP_DIR E)),
                   mkWorld (fs w) (log w ++ [Util.EvPrint "Removing temp directory."]))).
  { unfold remove_temp_directory, Path_exists, shutil_rmtree, Util.print,
      Util.emit, get_fs, set_fs, bind, ret, raise, fs_exists.
    cbn [fs log]. rewrite Hl. cbn [fs log]. rewrite Hl. reflexivity. }
  split; [exact Hrm|]. split.
  - rewrite prepare_unfold. apply bind_Raise_eq. exact Hrm.
  - cbn [log]. rewrite runs_app. cbn. apply app_nil_r.
Qed.

(** X14: a [prepare_temp_directory] that raises on an existing staging
    directory has already removed the old contents and does not put them
    back.  It stopped at the creation of the directory, at the lookup of the
    package name (the fresh directory is there and empty), or at the
    packager, which was run on the fresh empty directory. *)
Theorem prepare_failure_after_wipe (w w' : world) (e : exn) :
  fs_lookup (TEMP_DIR E) (fs w) = Some Dir ->
  prepare_temp_directory E w = (Raise e, w') ->
  let gone := outside (TEMP_DIR E) (fs w) in
  let clean := (gone ++ [(TEMP_DIR E, Dir)])%list in
  (fs w' = gone /\ check_parent (TEMP_DIR E) gone = Raise e)
  \/ (fs w' = clean /\ config2 E "package" "name" = Raise e)
  \/ (exists package o,
        config2 E "package" "name" = Ok package
        /\ Util.run_program E (package_command E (format_value E package)) clean
           = (o, fs w')
        /\ match o with
           | Completed rc _ _ =>
               rc <> 0%Z
               /\ e = CalledProcessError
                        (package_command E (format_value E package)) rc
           | LaunchFailed c m => e = OtherError c m
           end).
Proof.
  intros Hdir Hrun. cbn zeta. destruct w as [f lg]. cbn [fs] in *.
  rewrite prepare_unfold in Hrun.
  rewrite (bind_Ok_eq _ _ _ _ _ (remove_temp_directory_present E f lg Hdir)) in Hrun.
  unfold UtilSpec.populate, Path_mkdir, subprocess_run_check, lift, Util.emit,
    get_fs, set_fs, bind, ret, raise in Hrun.
  cbn [fs log] in Hrun. rewrite fs_exists_outside in Hrun. cbn [fs log] in Hrun.
  destruct (check_parent (TEMP_DIR E) (outside (TEMP_DIR E) f)) as [[]|e0];
    cbn [fs log] in Hrun.
  2:{ left. inversion Hrun. split; reflexivity. }
  destruct (config2 E "package" "name") as [package|e0]; cbn [fs log] in Hrun.
  2:{ right. left. inversion Hrun. split; reflexivity. }
  right. right. exists package.
  destruct (Util.run_program E (package_command E (format_value E package))
              (outside (TEMP_DIR E) f ++ [(TEMP_DIR E, Dir)])%list)
    as [[rc out err|c m] f1] eqn:Hprog; cbn [fs log] in Hrun.
  - destruct (Z.eqb rc 0) eqn:Hrc; [discriminate|].
    apply Z.eqb_neq in Hrc. inversion Hrun. cbn [fs].
    eexists. split; [reflexivity|]. split; [reflexivity|].
    split; [exact Hrc | reflexivity].
  - inversion Hrun. cbn [fs].
    eexists. split; [reflexivity|]. split; reflexivity.
Qed.

End StagingMore.


(** ** The test runner: what is run, what is counted, what is ignored *)

Section RunnerMoreFacts.

Import RunnerMore.

Context `{FloatOps} (P : platform).

Local Abbreviation passes := (RunnerSpec.passes P).
Local Abbreviation failures := (RunnerSpec.failures P).
Local Abbreviation successes := (RunnerSpec.successes P).
Local Abbreviation discovered := (RunnerSpec.discovered P).

Lemma slice_from_app (a b : string) (n : nat) :
  slice_from (String.length a + n) (a ++ b) = slice_from n b.
Proof. induction a as [|c a IH]; simpl; [reflexivity | exact IH]. Qed.

Lemma endswith_app (suffix a b : string) :
  endswith suffix b = true -> endswith suffix (a ++ b) = true.
Proof.
  unfold endswith. intros Hb. apply andb_true_iff in Hb.
  destruct Hb as [Hlen Heq]. apply Nat.leb_le in Hlen.
  rewrite str_length_app. apply andb_true_iff. split.
  - apply Nat.leb_le. lia.
  - replace (String.length a + String.length b - String.length suffix)%nat
      with (String.length a + (String.length b - String.length suffix))%nat
      by lia.
    rewrite slice_from_app. exact Heq.
Qed.

Lemma os_path_join_suffix (a b : string) : exists x, os_path_join a b = x ++ b.
Proof.
  unfold os_path_join. destruct (startswith "/" b).
  - exists "". reflexivity.
  - destruct (String.eqb a "" || endswith "/" a).
    + exists a. reflexivity.
    + exists (a ++ "/"). apply eq_sym, app_assoc_str_cons.
Qed.

(** X18: every path [find_mojo_test_files] returns ends in [.mojo]. *)
Theorem find_mojo_test_files_suffix (tests_dir : string) (t : option dirtree) :
  Forall (fun p => endswith ".mojo" p = true) (find_mojo_test_files tests_dir t).
Proof.
  apply Forall_forall. intros p Hin. destruct t as [t|]; [|destruct Hin].
  change (find_mojo_test_files tests_dir (Some t))
    with (sorted (candidates tests_dir t)) in Hin.
  eapply Permutation_in in Hin; [|apply Permutation_sym, sorted_perm].
  apply candidates_spec in Hin.
  destruct Hin as (dir & files & name & _ & _ & Hmojo & ->).
  destruct (os_path_join_suffix dir name) as [x ->].
  apply endswith_app. exact Hmojo.
Qed.

Lemma pass_fail_partition (files : list string) :
  (successes files + failures files)%nat = List.length files.
Proof.
  unfold RunnerSpec.successes, RunnerSpec.failures.
  induction files as [|f files IH]; cbn [filter]; [reflexivity|].
  destruct (RunnerSpec.passes P f); cbn [negb List.length]; lia.
Qed.

(** X15: [main] runs the test command once for every discovered file, in
    sorted order, whether earlier files failed or not, and runs nothing
    else. *)
Theorem main_runs_every_file (s : state) :
  ran (trace (snd (main P s)))
  = (ran (trace s) ++ map test_command discovered)%list
  /\ StronglySorted str_le discovered.
Proof.
  split; [|apply sorted_StronglySorted].
  pose proof (main_spec P s) as Hmain.
  destruct discovered as [|file files] eqn:Hd.
  - rewrite Hmain. cbn [snd trace]. rewrite ran_app. cbn.
    rewrite !app_nil_r. reflexivity.
  - destruct Hmain as (s' & -> & Hran & _). exact Hran.
Qed.

(** X16: when files are discovered, the summary [main] prints gives the
    number of discovered files, the number that passed and the number that
    failed, and the last two add up to the first. *)
Theorem main_summary_counts (s : state) :
  discovered <> [] ->
  exists before after,
    trace (snd (main P s))
    = (before
       ++ count_lines (List.length discovered) (successes discovered)
                      (failures discovered)
       ++ after)%list
    /\ (successes discovered + failures discovered)%nat
       = List.length discovered.
Proof.
  intros Hne. unfold main, RunnerSpec.discovered in *. cbn zeta.
  destruct (find_mojo_test_files "tests" (tests P)) as [|file files] eqn:Hfiles;
    [contradiction|].
  set (l := file :: files).
  unfold truediv, print, emit, time_time, bind, ret, raise.
  cbn [ticks trace].
  match goal with
  | |- context [run_loop P 1 ?t' l 0 0 ?s1] =>
      destruct (run_loop_spec P l 1 t' 0 0 s1) as (s' & Hloop & _ & _)
  end.
  rewrite Hloop. cbn [ticks trace Nat.add].
  assert (Hlen : Z.eqb (Z.of_nat (List.length l)) 0 = false).
  { subst l. cbn [List.length]. rewrite Nat2Z.inj_succ.
    apply Z.eqb_neq. lia. }
  rewrite Hlen. cbn [ticks trace].
  exists (trace s' ++ [Printed (nl ++ str_repeat "=" 80);
                       Printed "Test Summary:"])%list.
  destruct (0 <? failures l)%nat; cbn [snd trace]; eexists;
    (split; [|apply pass_fail_partition]);
    unfold count_lines; repeat rewrite <- app_assoc; cbn [app]; reflexivity.
Qed.

Lemma run_loop_observed (run' : list string -> outcome) :
  (forall argv, observed (run_program P argv) = observed (run' argv)) ->
  forall files i total passed failed s,
    run_loop P i total files passed failed s
    = run_loop (with_program P run') i total files passed failed s.
Proof.
  intros Hobs. induction files as [|file files IH];
    intros i total passed failed s; [reflexivity|].
  cbn [run_loop].
  unfold run_test, time_time, subprocess_run, print, emit, bind, ret.
  cbn [ticks trace clock run_program with_program].
  specialize (Hobs (test_command file)).
  destruct (run_program P (test_command file)) as [rc out err|c m];
    destruct (run' (test_command file)) as [rc' out' err'|c' m'];
    cbn [observed] in Hobs; try discriminate; inversion Hobs; subst.
  - cbn [ticks trace fst snd].
    destruct (Z.eqb rc' 0); cbn [ticks trace fst snd].
    + apply IH.
    + match goal with Heq : err = err' |- _ => rewrite Heq end.
      destruct (negb (String.eqb err' "")); cbn [ticks trace fst snd]; apply IH.
  - cbn [ticks trace fst snd].
    destruct (negb (String.eqb m' "")); cbn [ticks trace fst snd]; apply IH.
Qed.

(** X17: the standard output of the test commands, and the error output of
    those that exit with 0, have no effect on what [main] prints, runs or
    returns. *)
Theorem main_ignores_stdout (run' : list string -> outcome) (s : state) :
  (forall argv, observed (run_program P argv) = observed (run' argv)) ->
  main P s = main (with_program P run') s.
Proof.
  intros Hobs. unfold main. cbn zeta. cbn [tests with_program].
  destruct (find_mojo_test_files "tests" (tests P)) as [|file files];
    [reflexivity|].
  unfold truediv, print, emit, time_time, bind, ret, raise.
  cbn [ticks trace clock with_program].
  rewrite (run_loop_observed run' Hobs). reflexivity.
Qed.

End RunnerMoreFacts.


(** ** The further theorems on the sample project *)

Import UtilMore RunnerMore SampleMore.

Lemma generate_recipe_fails_clean_witness :
  snd (generate_recipe E0 bare) = bare.
Proof.
  apply (generate_recipe_fails_clean E0 bare (snd (generate_recipe E0 bare))
           (FileNotFoundError "README.md")).
  reflexivity.
Defined.


Lemma generate_recipe_twice_witness :
  exists w2,
    generate_recipe E0 (snd (generate_recipe E0 w0)) = (Ok tt, w2)
    /\ fs w2 = fs (snd (generate_recipe E0 w0)).
Proof.
  apply (generate_recipe_twice E0 w0 (snd (generate_recipe E0 w0))).
  vm_compute. reflexivity.
Defined.

Lemma sample_regular_files :
  regular_files (glob_conda (CONDA_BUILD_PATH E0) (fs w0)) (fs w0).
Proof.
  intros file Hin. vm_compute in Hin.
  destruct Hin as [<-|[<-|[]]]; eexists; reflexivity.
Defined.

Lemma sample_uploads_exit :
  uploads_exit E0 "chan" (glob_conda (CONDA_BUILD_PATH E0) (fs w0)).
Proof.
  intros file f Hin. vm_compute in Hin.
  destruct Hin as [<-|[<-|[]]]; eexists; eexists; eexists; reflexivity.
Defined.

Lemma sample_distinct_keys : NoDup (map fst (fs w0)).
Proof. distinct_keys. Defined.

Lemma publish_keeps_other_files_witness :
  fs_lookup "/bld/.hidden.conda" (fs (snd (publish E0 "chan" w0)))
  = fs_lookup "/bld/.hidden.conda" (fs w0).
Proof.
  apply (publish_keeps_other_files E0 "chan" w0 "/bld/.hidden.conda").
  - exact sample_distinct_keys.
  - exact sample_regular_files.
  - exact sample_uploads_exit.
  - intros name Hname. cbn in Hname. inversion Hname. reflexivity.
Defined.

Lemma publish_twice_witness :
  exists w1',
    publish E0 "chan" w0 = (Ok tt, w1')
    /\ publish E0 "chan" w1'
       = (Ok tt, mkWorld (fs w1') (log w1' ++ [publish_header E0 "chan"])).
Proof.
  apply (publish_twice E0 "chan" w0).
  - exact sample_distinct_keys.
  - exact sample_regular_files.
  - exact sample_uploads_exit.
Defined.

Lemma publish_stops_at_directory_witness :
  publish E0 "chan" (start disk_with_directory)
  = (Raise (IsADirectoryError "/bld/env.conda"),
     mkWorld (delete_all ["/bld/a.conda"; "/bld/bad.conda"]
                         (fs (start disk_with_directory)))
             (log (start disk_with_directory)
                ++ publish_header E0 "chan"
                :: flat_map (file_events "chan") ["/bld/a.conda"; "/bld/bad.conda"]
                ++ [uploading "chan" "/bld/env.conda";
                    Util.EvRun (upload_command "chan" "/bld/env.conda")]))
  /\ forall q, In q ["/bld/env.conda"] ->
       fs_lookup q (delete_all ["/bld/a.conda"; "/bld/bad.conda"]
                               (fs (start disk_with_directory)))
       = fs_lookup q (fs (start disk_with_directory)).
Proof.
  apply (publish_stops_at_directory E0 "chan" (start disk_with_directory)
           ["/bld/a.conda"; "/bld/bad.conda"] [] "/bld/env.conda").
  - distinct_keys.
  - reflexivity.
  - intros file Hin. destruct Hin as [<-|[<-|[]]]; eexists; reflexivity.
  - intros file f Hin.
    destruct Hin as [<-|[<-|[<-|[]]]]; eexists; eexists; eexists; reflexivity.
  - reflexivity.
Defined.

Lemma build_stops_when_generation_fails_witness :
  build_conda_package E0 bare = (Raise (FileNotFoundError "README.md"), bare)
  /\ snd (generate_recipe E0 bare) = bare.
Proof.
  apply (build_stops_when_generation_fails E0 bare
           (snd (generate_recipe E0 bare)) (FileNotFoundError "README.md"));
    reflexivity.
Defined.

Lemma failed_build_leaves_generated_recipe_witness :
  exists w' content,
    build_conda_package (project programs_build_fails) w0
      = (Raise (CalledProcessError
                  (build_command (project programs_build_fails)) 2), w')
    /\ fs w' = fs (snd (generate_recipe (project programs_build_fails) w0))
    /\ fs_lookup RECIPE_PATH (fs w') = Some (File content)
    /\ UtilSpec.ensure_recipe (project programs_build_fails) w' = (Ok tt, w').
Proof.
  apply (failed_build_leaves_generated_recipe (project programs_build_fails)
           w0 (snd (generate_recipe (project programs_build_fails) w0))
           2%Z "" "error: build failed").
  - reflexivity.
  - vm_compute. reflexivity.
  - reflexivity.
  - discriminate.
  - reflexivity.
Defined.

Lemma remove_temp_directory_idempotent_witness :
  fs_exists (TEMP_DIR E0) (fs (snd (remove_temp_directory E0 w1))) = false
  /\ (forall p, under (TEMP_DIR E0) p = false ->
        fs_lookup p (fs (snd (remove_temp_directory E0 w1))) = fs_lookup p (fs w1))
  /\ remove_temp_directory E0 (snd (remove_temp_directory E0 w1))
     = (Ok tt, snd (remove_temp_directory E0 w1)).
Proof.
  apply (remove_temp_directory_idempotent E0 w1).
  vm_compute. reflexivity.
Defined.

Lemma staging_path_is_a_file_witness :
  remove_temp_directory E0 (start disk_with_file)
    = (Raise (NotADirectoryError (TEMP_DIR E0)),
       mkWorld (fs (start disk_with_file))
               (log (start disk_with_file)
                  ++ [Util.EvPrint "Removing temp directory."]))
  /\ prepare_temp_directory E0 (start disk_with_file)
     = (Raise (NotADirectoryError (TEMP_DIR E0)),
        mkWorld (fs (start disk_with_file))
                (log (start disk_with_file)
                   ++ [Util.EvPrint "Removing temp directory."]))
  /\ runs (log (mkWorld (fs (start disk_with_file))
                        (log (start disk_with_file)
                           ++ [Util.EvPrint "Removing temp directory."])))
     = runs (log (start disk_with_file)).
Proof.
  apply (staging_path_is_a_file E0 (start disk_with_file) "not a directory").
  reflexivity.
Defined.

Lemma prepare_failure_after_wipe_witness :
  (fs (snd (prepare_temp_directory (project programs_build_fails) w1))
     = outside "/home/u/tmp" (fs w1)
   /\ check_parent "/home/u/tmp" (outside "/home/u/tmp" (fs w1))
      = Raise (CalledProcessError
                 (package_command (project programs_build_fails) "zlib") 2))
  \/ (fs (snd (prepare_temp_directory (project programs_build_fails) w1))
        = (outside "/home/u/tmp" (fs w1) ++ [("/home/u/tmp", Dir)])%list
      /\ config2 (project programs_build_fails) "package" "name"
         = Raise (CalledProcessError
                    (package_command (project programs_build_fails) "zlib") 2))
  \/ (exists package o,
        config2 (project programs_build_fails) "package" "name" = Ok package
        /\ Util.run_program (project programs_build_fails)
             (package_command (project programs_build_fails)
                (format_value (project programs_build_fails) package))
             (outside "/home/u/tmp" (fs w1) ++ [("/home/u/tmp", Dir)])%list
           = (o, fs (snd (prepare_temp_directory (project programs_build_fails) w1)))
        /\ match o with
           | Completed rc _ _ =>
               rc <> 0%Z
               /\ CalledProcessError
                    (package_command (project programs_build_fails) "zlib") 2
                  = CalledProcessError
                      (package_command (project programs_build_fails)
                         (format_value (project programs_build_fails) package)) rc
           | LaunchFailed c m =>
               CalledProcessError
                 (package_command (project programs_build_fails) "zlib") 2
               = OtherError c m
           end).
Proof.
  apply (prepare_failure_after_wipe (project programs_build_fails) w1
           (snd (prepare_temp_directory (project programs_build_fails) w1))
           (CalledProcessError
              (package_command (project programs_build_fails) "zlib") 2)).
  - reflexivity.
  - vm_compute. reflexivity.
Defined.

Lemma main_summary_counts_witness :
  exists before after,
    trace (snd (main (runner (Some tests_tree)) initial))
    = (before
       ++ count_lines
            (List.length (RunnerSpec.discovered (runner (Some tests_tree))))
            (RunnerSpec.successes (runner (Some tests_tree))
               (RunnerSpec.discovered (runner (Some tests_tree))))
            (RunnerSpec.failures (runner (Some tests_tree))
               (RunnerSpec.discovered (runner (Some tests_tree))))
       ++ after)%list
    /\ (RunnerSpec.successes (runner (Some tests_tree))
          (RunnerSpec.discovered (runner (Some tests_tree)))
        + RunnerSpec.failures (runner (Some tests_tree))
            (RunnerSpec.discovered (runner (Some tests_tree))))%nat
       = List.length (RunnerSpec.discovered (runner (Some tests_tree))).
Proof.
  apply (main_summary_counts (runner (Some tests_tree)) initial).
  vm_compute. discriminate.
Defined.

Lemma main_ignores_stdout_witness :
  main (runner (Some tests_tree)) initial
  = main (with_program (runner (Some tests_tree)) quiet_test_program) initial.
Proof.
  apply (main_ignores_stdout (runner (Some tests_tree)) quiet_test_program initial).
  intros argv. unfold quiet_test_program. cbn [TestRunner.run_program runner].
  destruct (test_program argv) as [rc out err|c m]; cbn [observed].
  - destruct (Z.eqb rc 0) eqn:Hrc; rewrite ?Hrc; reflexivity.
  - reflexivity.
Defined.
